(** * TravelAgent: a shallow embedding of [TravelAgent.py]

    The trip-planning pipeline of [TravelAgent.py]: date defaulting
    ([ensure_dates]), airport lookup ([find_iata]), the three provider
    searches ([search_flights], [search_events], [search_restaurants]), the
    prompt of [build_itinerary_text] and the controller [main].

    Python values are modelled as the interpreter has them: text as lists of
    code points, provider payloads as JSON values, dates by their proleptic
    Gregorian ordinal, exceptions as an explicit result type, and the outside
    world (clock, environment variables, network, generators) as a record of
    answers together with a chronological trace of the calls made. *)

From Stdlib Require Import List String Ascii Bool ZArith NArith QArith Lia.
Import ListNotations.

Set Implicit Arguments.
Local Set Warnings "-register-all".
Local Open Scope Z_scope.

(** ** Text: Python [str] as a list of code points *)

Definition str := list N.

(** A literal of the source. *)
Definition lit (s : string) : str := map N_of_ascii (list_ascii_of_string s).

Fixpoint str_eqb (s t : str) : bool :=
  match s, t with
  | [], [] => true
  | c :: s', d :: t' => N.eqb c d && str_eqb s' t'
  | _, _ => false
  end.

(** The code points [str.strip()] removes (the interpreter's whitespace
    table: TAB..CR, FS..US, SPACE, NEL, NBSP and the Unicode space
    separators and line/paragraph separators). *)
Definition is_space (c : N) : bool :=
  ((9 <=? c) && (c <=? 13) || (28 <=? c) && (c <=? 32)
   || (c =? 133) || (c =? 160) || (c =? 5760)
   || (8192 <=? c) && (c <=? 8202)
   || (c =? 8232) || (c =? 8233) || (c =? 8239) || (c =? 8287)
   || (c =? 12288))%N.

Fixpoint lstrip (s : str) : str :=
  match s with
  | [] => []
  | c :: s' => if is_space c then lstrip s' else s
  end.

Definition rstrip (s : str) : str := rev (lstrip (rev s)).

(** [s.strip()] *)
Definition strip (s : str) : str := rstrip (lstrip s).

(** [sep.join(xs)] on a list of strings. *)
Fixpoint join (sep : str) (xs : list str) : str :=
  match xs with
  | [] => []
  | [x] => x
  | x :: rest => x ++ sep ++ join sep rest
  end.

(** What [str.lower()] does on text below code point 128. *)
Definition ascii_lower_char (c : N) : N :=
  if ((65 <=? c) && (c <=? 90))%N then (c + 32)%N else c.

Definition is_ascii (s : str) : bool := forallb (fun c => (c <? 128)%N) s.

(** ** Exceptions and results *)

Inductive exn_class :=
| KeyError | IndexError | TypeError | AttributeError | OverflowError
| ResponseError              (* amadeus.ResponseError and its subclasses *)
| OtherError (name : str).   (* any other subclass of Exception *)

(** An exception: its class and its first argument (the message). *)
Record exn := Exn { exn_cls : exn_class; exn_arg : str }.

Inductive result (A : Type) :=
| Ok (a : A)
| Raise (e : exn).
Arguments Ok {A} a.
Arguments Raise {A} e.

Definition is_KeyError (e : exn) : bool :=
  match exn_cls e with KeyError => true | _ => false end.

Definition is_ResponseError (e : exn) : bool :=
  match exn_cls e with ResponseError => true | _ => false end.

(** [except Exception]: every modelled exception derives from [Exception]. *)
Definition is_Exception (e : exn) : bool := true.

Definition rbind {A B} (r : result A) (k : A -> result B) : result B :=
  match r with
  | Ok a => k a
  | Raise e => Raise e
  end.

(** ** JSON values, as [json.loads] and the provider SDKs hand them over *)

Inductive json :=
| JNull                               (* None *)
| JBool (b : bool)
| JInt (z : Z)
| JFloat (q : Q)                      (* a finite float, by its exact value *)
| JStr (s : str)
| JList (xs : list json)
| JDict (items : list (str * json)).  (* items in insertion order *)

Fixpoint dict_lookup {A} (k : str) (items : list (str * A)) : option A :=
  match items with
  | [] => None
  | (k', v) :: rest => if str_eqb k' k then Some v else dict_lookup k rest
  end.

(** Truth value of an object ([if x], [not x], [x or y]). *)
Definition truthy (j : json) : bool :=
  match j with
  | JNull => false
  | JBool b => b
  | JInt z => negb (z =? 0)
  | JFloat q => negb (Qeq_bool q 0)
  | JStr s => match s with [] => false | _ => true end
  | JList xs => match xs with [] => false | _ => true end
  | JDict kvs => match kvs with [] => false | _ => true end
  end.

Definition num_val (j : json) : option Q :=
  match j with
  | JBool b => Some (if b then 1%Q else 0%Q)
  | JInt z => Some (inject_Z z)
  | JFloat q => Some q
  | _ => None
  end.

(** Python's [==] on these values: numbers (booleans included) by value,
    strings and lists pointwise, dicts as finite maps. *)
Fixpoint py_eq (a b : json) : bool :=
  match a, b with
  | JNull, JNull => true
  | JStr s, JStr t => str_eqb s t
  | JList xs, JList ys =>
      (fix go (xs ys : list json) : bool :=
         match xs, ys with
         | [], [] => true
         | x :: xs', y :: ys' => py_eq x y && go xs' ys'
         | _, _ => false
         end) xs ys
  | JDict kvs, JDict kws =>
      (fix sub (kvs : list (str * json)) : bool :=
         match kvs with
         | [] => true
         | (k, v) :: rest =>
             match dict_lookup k kws with
             | Some w => py_eq v w
             | None => false
             end && sub rest
         end) kvs
      && forallb (fun kw => match dict_lookup (fst kw) kvs with
                            | Some _ => true
                            | None => false
                            end) kws
  | _, _ =>
      match num_val a, num_val b with
      | Some x, Some y => Qeq_bool x y
      | _, _ => false
      end
  end.

(** [x in names] *)
Definition py_in (x : json) (names : list json) : bool :=
  existsb (fun y => py_eq y x) names.

Definition type_error : exn := Exn TypeError (lit "unsupported operand").
Definition attribute_error : exn := Exn AttributeError (lit "no such attribute").

(** [obj[key]] with a string key. *)
Definition getitem (obj : json) (key : str) : result json :=
  match obj with
  | JDict kvs =>
      match dict_lookup key kvs with
      | Some v => Ok v
      | None => Raise (Exn KeyError key)
      end
  | _ => Raise type_error
  end.

(** [obj[0]] *)
Definition getitem0 (obj : json) : result json :=
  match obj with
  | JList (x :: _) => Ok x
  | JList [] => Raise (Exn IndexError (lit "list index out of range"))
  | JStr (c :: _) => Ok (JStr [c])
  | JStr [] => Raise (Exn IndexError (lit "string index out of range"))
  | JDict _ => Raise (Exn KeyError (lit "0"))
  | _ => Raise type_error
  end.

(** [obj.get(key, default)]: only dicts have the method. *)
Definition dict_get (obj : json) (key : str) (default : json) : result json :=
  match obj with
  | JDict kvs =>
      match dict_lookup key kvs with
      | Some v => Ok v
      | None => Ok default
      end
  | _ => Raise attribute_error
  end.

(** [for x in obj]: the elements visited. *)
Definition iterate (obj : json) : result (list json) :=
  match obj with
  | JList xs => Ok xs
  | JStr s => Ok (map (fun c => JStr [c]) s)
  | JDict kvs => Ok (map (fun kv => JStr (fst kv)) kvs)
  | _ => Raise type_error
  end.

(** [obj[:3]] *)
Definition slice3 (obj : json) : result json :=
  match obj with
  | JList xs => Ok (JList (firstn 3 xs))
  | JStr s => Ok (JStr (firstn 3 s))
  | _ => Raise type_error
  end.

(** [x or y] *)
Definition py_or (x y : json) : json := if truthy x then x else y.

(** ** Dates

    A [datetime.date] is its proleptic Gregorian ordinal ([date.toordinal()]):
    1 is 0001-01-01 and [MAXORDINAL] is 9999-12-31, the last date the type
    holds. *)

Definition date := Z.

Definition MAXORDINAL : Z := 3652059.

Definition valid_date (d : date) : Prop := 1 <= d <= MAXORDINAL.

(** [d + timedelta(days=n)]: [date.__add__] raises [OverflowError] when the
    sum leaves the range of the type. *)
Definition date_add (d : date) (days : Z) : result date :=
  let o := d + days in
  if (0 <? o) && (o <=? MAXORDINAL) then Ok o
  else Raise (Exn OverflowError (lit "date value out of range")).

(** ** The data model *)

(** [class UserRequest(BaseModel)] *)
Record UserRequest := {
  origin : str;
  destination : str;
  start_date : option date;
  end_date : option date;
  budget : option Q;
  interests : option (list str)
}.

Definition set_start_date (req : UserRequest) (d : date) : UserRequest :=
  {| origin := origin req; destination := destination req;
     start_date := Some d; end_date := end_date req;
     budget := budget req; interests := interests req |}.

Definition set_end_date (req : UserRequest) (d : date) : UserRequest :=
  {| origin := origin req; destination := destination req;
     start_date := start_date req; end_date := Some d;
     budget := budget req; interests := interests req |}.

Definition set_budget (req : UserRequest) (b : option Q) : UserRequest :=
  {| origin := origin req; destination := destination req;
     start_date := start_date req; end_date := end_date req;
     budget := b; interests := interests req |}.

(** A record of the airport table. [find_iata] reads its ['city'] only, which
    a record may lack. *)
Record Airport := { city : option str }.

(** [info.get('city', '')] *)
Definition get_city (info : Airport) : str :=
  match city info with
  | Some c => c
  | None => []
  end.

(** ** The outside world *)

(** The Amadeus client, by the credentials it was built from. *)
Record Client := { client_id : option str; client_secret : option str }.

(** A [requests.Response], by what its two methods used here do. *)
Record Response := {
  raise_for_status : result unit;
  response_json : result json
}.

(** A geopy [Location]. *)
Record Location := { latitude : Q; longitude : Q }.

(** What the world answers to each call the program makes. *)
Record World := {
  now_date : date;                                   (* datetime.now().date() *)
  getenv : str -> option str;                        (* os.getenv *)
  stdin_line : str;                                  (* input(...) *)
  agent_request : str -> str -> str -> result UserRequest;
    (* Agent(model, output_type=UserRequest, system_prompt).run_sync(text).output *)
  agent_text : str -> str -> str -> result str;
    (* Agent(model, output_type=str, system_prompt).run_sync(prompt).output *)
  new_client : option str -> option str -> result Client;   (* Client(...) *)
  flight_offers_search_get : Client -> list (str * json) -> result json;
    (* amadeus.shopping.flight_offers_search.get with these keyword arguments, then .data *)
  requests_get : str -> list (str * str) -> result Response;
  geocode : str -> result (option Location)          (* geolocator.geocode(city, timeout=10) *)
}.

Inductive level := INFO | WARNING | ERROR.

(** The calls a run makes, in the order it makes them. *)
Inductive event :=
| Log (l : level) (msg : str)
| Input (prompt : str)
| Print (s : str)
| RunAgent (model system_prompt prompt : str)
| NewClient (id secret : option str)
| FlightOffersSearch (params : list (str * json))
| RequestsGet (url : str) (params : list (str * str))
| Geocode (query : str).

Definition trace := list event.

(** ** Computations: a trace of effects and exceptions *)

Definition M (A : Type) : Type := trace -> result A * trace.

Definition ret {A} (a : A) : M A := fun t => (Ok a, t).

Definition bind {A B} (m : M A) (k : A -> M B) : M B :=
  fun t =>
    match m t with
    | (Ok a, t') => k a t'
    | (Raise e, t') => (Raise e, t')
    end.

Definition lift {A} (r : result A) : M A := fun t => (r, t).

Definition emit (e : event) : M unit := fun t => (Ok tt, t ++ [e]).

(** An external call: recorded, then answered by the world. *)
Definition call {A} (e : event) (r : result A) : M A := fun t => (r, t ++ [e]).

(** [try: m  except <catches> as e: handler e] *)
Definition try_except {A} (m : M A) (catches : exn -> bool) (handler : exn -> M A) : M A :=
  fun t =>
    match m t with
    | (Ok a, t') => (Ok a, t')
    | (Raise e, t') => if catches e then handler e t' else (Raise e, t')
    end.

Declare Scope py_scope.
Delimit Scope py_scope with py.
Notation "x <- m ;; k" := (bind m (fun x => k))
  (at level 100, m at next level, right associativity) : py_scope.
Notation "m ;; k" := (bind m (fun _ => k))
  (at level 100, right associativity) : py_scope.
Local Open Scope py_scope.

Definition log (l : level) (msg : str) : M unit := emit (Log l msg).

(** A block that owns a local variable of type [L]: exceptions leave the
    local as it was when they were raised, so a handler can still read it. *)
Definition Local (L A : Type) : Type := L * trace -> result A * (L * trace).

Definition lret {L A} (a : A) : Local L A := fun s => (Ok a, s).

Definition lbind {L A B} (m : Local L A) (k : A -> Local L B) : Local L B :=
  fun s =>
    match m s with
    | (Ok a, s') => k a s'
    | (Raise e, s') => (Raise e, s')
    end.

Definition world {L A} (m : M A) : Local L A :=
  fun s => let (r, t') := m (snd s) in (r, (fst s, t')).

Definition get_local {L} : Local L L := fun s => (Ok (fst s), s).

Definition modify_local {L} (f : L -> L) : Local L unit :=
  fun s => (Ok tt, (f (fst s), snd s)).

Definition ltry_except {L A} (m : Local L A) (catches : exn -> bool)
    (handler : exn -> Local L A) : Local L A :=
  fun s =>
    match m s with
    | (Ok a, s') => (Ok a, s')
    | (Raise e, s') => if catches e then handler e s' else (Raise e, s')
    end.

Definition with_local {L A} (init : L) (m : Local L A) : M A :=
  fun t => let (r, s) := m (init, t) in (r, snd s).

(** [for x in xs: body x] *)
Fixpoint for_each {L A} (xs : list A) (body : A -> Local L unit) : Local L unit :=
  match xs with
  | [] => lret tt
  | x :: rest => lbind (body x) (fun _ => for_each rest body)
  end.

Declare Scope local_scope.
Delimit Scope local_scope with local.
Notation "x <- m ;; k" := (lbind m (fun x => k))
  (at level 100, m at next level, right associativity) : local_scope.
Notation "m ;; k" := (lbind m (fun _ => k))
  (at level 100, right associativity) : local_scope.

Declare Scope result_scope.
Delimit Scope result_scope with res.
Notation "x <- m ;; k" := (rbind m (fun x => k))
  (at level 100, m at next level, right associativity) : result_scope.

(** A list comprehension whose element expression may raise. *)
Fixpoint map_result {A B} (f : A -> result B) (xs : list A) : result (list B) :=
  match xs with
  | [] => Ok []
  | x :: rest =>
      (y <- f x ;; ys <- map_result f rest ;; Ok (y :: ys))%res
  end.

(** ** The program *)

Section Program.

(** Library functions the program calls and this development does not
    spell out. *)
Variable lower : str -> str.          (* str.lower() *)
Variable py_str : json -> str.        (* str(x) of a value that is not a str *)
Variable py_repr : str -> str.        (* repr(s) of a str *)
Variable isoformat : date -> str.     (* date.isoformat(), also str(date) *)

(** [airports = airportsdata.load('IATA')], in the order [airports.items()]
    yields its entries. *)
Variable airports : list (str * Airport).

Variable w : World.

(** [f"{x}"] *)
Definition format_value (j : json) : str :=
  match j with
  | JStr s => s
  | _ => py_str j
  end.

(** [f"{e}"] for an exception: [KeyError] shows the repr of its argument. *)
Definition exn_str (e : exn) : str :=
  match exn_cls e with
  | KeyError => py_repr (exn_arg e)
  | _ => exn_arg e
  end.

(** [f"{d}"] for an optional date. *)
Definition date_str (d : option date) : str :=
  match d with
  | Some d => isoformat d
  | None => lit "None"
  end.

(** [d.isoformat()] *)
Definition call_isoformat (d : option date) : result str :=
  match d with
  | Some d => Ok (isoformat d)
  | None => Raise attribute_error
  end.

(** [os.getenv('PYDANTIC_AI_MODEL', 'google-gla:gemini-2.0-flash')] *)
Definition agent_model : str :=
  match getenv w (lit "PYDANTIC_AI_MODEL") with
  | Some m => m
  | None => lit "google-gla:gemini-2.0-flash"
  end.

Definition extraction_system_prompt : str :=
  lit "Extract origin, destination, start_date (YYYY-MM-DD), end_date (YYYY-MM-DD), "
  ++ lit "budget (float), and interests (list of keywords) from this sentence. "
  ++ lit "If dates are missing, guess a 2-week-from-today start and add however much time they are telling in words or numbers. Return JSON matching UserRequest."
  ++ lit "You also Correct the spellings of The names of places if they are not correct.".

Definition parse_user_request (text : str) : M UserRequest :=
  call (RunAgent agent_model extraction_system_prompt text)
       (agent_request w agent_model extraction_system_prompt text).

Definition ensure_dates (req : UserRequest) : M UserRequest :=
  let today := now_date w in
  req <- match start_date req with
         | None =>
             d <- lift (date_add today 14) ;;
             let req := set_start_date req d in
             log INFO (lit "No start_date: defaulting to " ++ date_str (start_date req)) ;;
             ret req
         | Some _ => ret req
         end ;;
  req <- match end_date req with
         | None =>
             d <- lift match start_date req with
                       | Some s => date_add s 7
                       | None => Raise type_error
                       end ;;
             let req := set_end_date req d in
             log INFO (lit "No end_date: defaulting to " ++ date_str (end_date req)) ;;
             ret req
         | Some _ => ret req
         end ;;
  ret req.

(** The [for code, info in airports.items()] loop of [find_iata]. *)
Fixpoint scan_airports (items : list (str * Airport)) (city_lower : str) : option str :=
  match items with
  | [] => None
  | (code, info) :: rest =>
      if str_eqb (lower (get_city info)) city_lower then Some code
      else scan_airports rest city_lower
  end.

Definition find_iata (city_name : str) : result str :=
  let city_lower := lower (strip city_name) in
  match scan_airports airports city_lower with
  | Some code => Ok code
  | None =>
      Raise (Exn KeyError (lit "No IATA code found for city '" ++ city_name ++ lit "'"))
  end.

(** [f"{seg['carrierCode']}{seg['number']} on {seg['departure']['at']}"] with
    [seg = offer['itineraries'][0]['segments'][0]]. *)
Definition flight_descriptor (offer : json) : result str :=
  (itineraries <- getitem offer (lit "itineraries") ;;
   itinerary <- getitem0 itineraries ;;
   segments <- getitem itinerary (lit "segments") ;;
   seg <- getitem0 segments ;;
   carrier <- getitem seg (lit "carrierCode") ;;
   number <- getitem seg (lit "number") ;;
   departure <- getitem seg (lit "departure") ;;
   at_ <- getitem departure (lit "at") ;;
   Ok (format_value carrier ++ format_value number ++ lit " on " ++ format_value at_))%res.

Definition flight_params (origin_code dest_code departure return_ : str) : list (str * json) :=
  [ (lit "originLocationCode", JStr origin_code);
    (lit "destinationLocationCode", JStr dest_code);
    (lit "departureDate", JStr departure);
    (lit "returnDate", JStr return_);
    (lit "adults", JInt 1);
    (lit "max", JInt 3) ].

Definition search_flights (amadeus : Client) (origin_code dest_code : str)
    (start end_ : option date) : M (list str) :=
  with_local ([] : list str)                                  (* flights = [] *)
    (ltry_except
       (departure <- world (lift (call_isoformat start)) ;;
        return_ <- world (lift (call_isoformat end_)) ;;
        let params := flight_params origin_code dest_code departure return_ in
        data <- world (call (FlightOffersSearch params)
                            (flight_offers_search_get w amadeus params)) ;;
        offers <- world (lift (iterate (py_or data (JList [])))) ;;
        for_each offers (fun offer =>
          d <- world (lift (flight_descriptor offer)) ;;
          modify_local (fun flights => flights ++ [d])) ;;
        flights <- get_local ;;
        match flights with
        | [] => world (log WARNING (lit "No flights found."))
        | _ => lret tt
        end)
       is_ResponseError
       (fun e => world (log ERROR (lit "Flight search error: " ++ exn_str e))) ;;
     get_local)%local.                                        (* return flights *)

(** [f"{ev['name']['text']} at {ev['start']['local']}"] *)
Definition event_descriptor (ev : json) : result str :=
  (name <- getitem ev (lit "name") ;;
   text <- getitem name (lit "text") ;;
   start <- getitem ev (lit "start") ;;
   local_ <- getitem start (lit "local") ;;
   Ok (format_value text ++ lit " at " ++ format_value local_))%res.

(** [not token] for the result of [os.getenv]. *)
Definition no_token (token : option str) : bool :=
  match token with
  | None => true
  | Some [] => true
  | Some _ => false
  end.

Definition eventbrite_url : str := lit "https://www.eventbriteapi.com/v3/events/search/".

Definition event_params (city range_start range_end token : str)
    (interests : list str) : list (str * str) :=
  [ (lit "location.address", city);
    (lit "start_date.range_start", range_start);
    (lit "start_date.range_end", range_end);
    (lit "token", token);
    (lit "sort_by", lit "date");
    (lit "q", join (lit " ") interests) ].

(** [data = r.json().get('events', [])] and the comprehension over
    [data[:3]], [body] being what [r.json()] returned. *)
Definition events_of_body (body : json) : result (list str) :=
  (data <- dict_get body (lit "events") (JList []) ;;
   first3 <- slice3 data ;;
   evs <- iterate first3 ;;
   map_result event_descriptor evs)%res.

Definition search_events (city : str) (start end_ : option date)
    (interests : list str) : M (list str) :=
  let token := getenv w (lit "EVENTBRITE_TOKEN") in
  if no_token token then
    log WARNING (lit "No Eventbrite token; skipping events.") ;;
    ret []
  else
    range_start <- lift (call_isoformat start) ;;
    range_end <- lift (call_isoformat end_) ;;
    let params :=
      event_params city range_start range_end
                   match token with Some tk => tk | None => [] end interests in
    try_except
      (r <- call (RequestsGet eventbrite_url params) (requests_get w eventbrite_url params) ;;
       lift (raise_for_status r) ;;
       body <- lift (response_json r) ;;
       lift (events_of_body body))
      is_Exception
      (fun e =>
         log ERROR (lit "Event search error: No Event Found") ;;
         ret []).

(** The loop of [search_restaurants] over the elements, [names] being the
    list built so far; it stops as soon as three names are held. *)
Fixpoint collect_names (elements : list json) (names : list json) : result (list json) :=
  match elements with
  | [] => Ok names
  | el :: rest =>
      (tags <- dict_get el (lit "tags") (JDict []) ;;
       name <- dict_get tags (lit "name") JNull ;;
       let names := if truthy name && negb (py_in name names)
                    then names ++ [name] else names in
       if (3 <=? List.length names)%nat then Ok names
       else collect_names rest names)%res
  end.

Definition overpass_url : str := lit "http://overpass-api.de/api/interpreter".

Definition overpass_query (lat lon : Q) : str :=
  lit "[out:json]; node[amenity=restaurant](around:5000,"
  ++ py_str (JFloat lat) ++ lit "," ++ py_str (JFloat lon) ++ lit "); out;".

(** [elements = r.json().get('elements', [])] and the loop over them,
    [body] being what [r.json()] returned. *)
Definition names_of_body (body : json) : result (list json) :=
  (elements <- dict_get body (lit "elements") (JList []) ;;
   els <- iterate elements ;;
   collect_names els [])%res.

Definition search_restaurants (city : str) : M (list json) :=
  loc <- call (Geocode city) (geocode w city) ;;
  match loc with
  | None =>
      log WARNING (lit "Could not geocode " ++ city ++ lit "; skipping restaurants.") ;;
      ret []
  | Some loc =>
      let lat := latitude loc in
      let lon := longitude loc in
      let query := overpass_query lat lon in
      try_except
        (r <- call (RequestsGet overpass_url [(lit "data", query)])
                   (requests_get w overpass_url [(lit "data", query)]) ;;
         body <- lift (response_json r) ;;
         lift (names_of_body body))
        is_Exception
        (fun e =>
           log ERROR (lit "Restaurant search error: " ++ exn_str e) ;;
           ret [])
  end.

(** [', '.join(xs)]: [str.join] raises [TypeError] on an item that is not a
    string. *)
Fixpoint join_values (sep : str) (xs : list json) : result str :=
  match xs with
  | [] => Ok []
  | JStr x :: rest =>
      match rest with
      | [] => Ok x
      | _ => (tail <- join_values sep rest ;; Ok (x ++ sep ++ tail))%res
      end
  | _ :: _ => Raise type_error
  end.

(** [', '.join(xs) if xs else 'none'] *)
Definition render_facts (xs : list json) : result str :=
  match xs with
  | [] => Ok (lit "none")
  | _ => join_values (lit ", ") xs
  end.

(** The prompt [build_itinerary_text] sends to the generator. *)
Definition itinerary_prompt (req : UserRequest)
    (flights events restaurants : list json) : result str :=
  (fl <- render_facts flights ;;
   ev <- render_facts events ;;
   rs <- render_facts restaurants ;;
   Ok (lit "Plan a friendly, detailed itinerary for a trip from " ++ origin req
       ++ lit " to " ++ destination req ++ lit ", "
       ++ lit "departing " ++ date_str (start_date req)
       ++ lit " and returning " ++ date_str (end_date req) ++ lit ". "
       ++ lit "Flights: " ++ fl ++ lit ". "
       ++ lit "Events: " ++ ev ++ lit ". "
       ++ lit "Restaurants: " ++ rs ++ lit ". "
       ++ lit "Do not return JSON. Write clear day-by-day bullet points."
       ++ lit "Only give the itinerary for the trip, do not ask anything back."
       ++ lit "Do not use Decorators like *'s, instead make use of whitespaces to make it look cleaner"))%res.

Definition planner_system_prompt : str := lit "You are a helpful travel planner.".

Definition build_itinerary_text (req : UserRequest)
    (flights events restaurants : list json) : M str :=
  prompt <- lift (itinerary_prompt req flights events restaurants) ;;
  call (RunAgent agent_model planner_system_prompt prompt)
       (agent_text w agent_model planner_system_prompt prompt).

(** [req.interests or []] *)
Definition interests_or_empty (req : UserRequest) : list str :=
  match interests req with
  | Some l => l
  | None => []
  end.

Definition itinerary_banner : str := [10%N] ++ lit "--- Your Itinerary ---" ++ [10%N].

(** [main] from [req = ensure_dates(req)] on. *)
Definition plan_trip (req : UserRequest) : M unit :=
  req <- ensure_dates req ;;
  let api_key := getenv w (lit "AMADEUS_API_KEY") in
  let api_secret := getenv w (lit "AMADEUS_API_SECRET") in
  amadeus <- call (NewClient api_key api_secret) (new_client w api_key api_secret) ;;
  codes <- try_except
             (orig_code <- lift (find_iata (origin req)) ;;
              dest_code <- lift (find_iata (destination req)) ;;
              ret (Some (orig_code, dest_code)))
             is_KeyError
             (fun e =>
                log ERROR (lit "IATA lookup failed: " ++ exn_str e) ;;
                ret None) ;;                                   (* return *)
  match codes with
  | None => ret tt
  | Some (orig_code, dest_code) =>
      flights <- search_flights amadeus orig_code dest_code
                   (start_date req) (end_date req) ;;
      events <- search_events (destination req) (start_date req) (end_date req)
                  (interests_or_empty req) ;;
      restaurants <- search_restaurants (destination req) ;;
      itinerary <- build_itinerary_text req (map JStr flights) (map JStr events)
                     restaurants ;;
      emit (Print itinerary_banner) ;;
      emit (Print itinerary)
  end.

Definition main : M unit :=
  text <- call (Input (lit "Enter your travel request: ")) (Ok (stdin_line w)) ;;
  req <- parse_user_request text ;;
  plan_trip req.

End Program.

(** ** Sample data for the concrete examples *)

Module Sample.

(** [str.lower()] on text below code point 128 (other code points are left
    as they are). *)
Definition ascii_lower (s : str) : str := map ascii_lower_char s.

Fixpoint digits (fuel : nat) (n : Z) (acc : str) : str :=
  match fuel with
  | O => acc
  | S fuel' =>
      let acc' := Z.to_N (48 + n mod 10) :: acc in
      if n / 10 =? 0 then acc' else digits fuel' (n / 10) acc'
  end.

(** Decimal digits of a natural number, left-padded with zeros to [width]. *)
Definition decimal (width : nat) (n : Z) : str :=
  let ds := digits 20 n [] in
  repeat 48%N (width - List.length ds) ++ ds.

(** [date.fromordinal(o).isoformat()], by the usual civil-from-days
    computation on the proleptic Gregorian calendar. *)
Definition isoformat (o : date) : str :=
  let z := o + 305 in                       (* days since 0000-03-01 *)
  let era := z / 146097 in
  let doe := z - era * 146097 in
  let yoe := (doe - doe / 1460 + doe / 36524 - doe / 146096) / 365 in
  let doy := doe - (365 * yoe + yoe / 4 - yoe / 100) in
  let mp := (5 * doy + 2) / 153 in
  let d := doy - (153 * mp + 2) / 5 + 1 in
  let m := if mp <? 10 then mp + 3 else mp - 9 in
  let y := yoe + era * 400 + (if m <=? 2 then 1 else 0) in
  decimal 4 y ++ lit "-" ++ decimal 2 m ++ lit "-" ++ decimal 2 d.

Definition signed (z : Z) : str :=
  if z <? 0 then lit "-" ++ decimal 1 (- z) else decimal 1 z.

(** [str(x)] on the scalars the examples format. *)
Definition py_str (j : json) : str :=
  match j with
  | JNull => lit "None"
  | JBool true => lit "True"
  | JBool false => lit "False"
  | JInt z => signed z
  | JFloat q => signed (Qnum q / Zpos (Qden q)) ++ lit ".0"   (* integral floats *)
  | JStr s => s
  | _ => lit "..."
  end.

(** [repr(s)] of a string that holds an apostrophe and nothing to escape. *)
Definition py_repr (s : str) : str := [34%N] ++ s ++ [34%N].

Definition airports : list (str * Airport) :=
  [ (lit "BOS", {| city := Some (lit "Boston") |});
    (lit "ZZZ", {| city := None |});
    (lit "CDG", {| city := Some (lit "Paris") |});
    (lit "DEN", {| city := Some (lit "Denver") |});
    (lit "ORY", {| city := Some (lit "Paris") |});
    (lit "PRX", {| city := Some (lit "paris") |}) ].

Definition segment (carrier number at_ : string) : json :=
  JDict [ (lit "itineraries",
           JList [ JDict [ (lit "segments",
             JList [ JDict [ (lit "carrierCode", JStr (lit carrier));
                             (lit "number", JStr (lit number));
                             (lit "departure", JDict [ (lit "at", JStr (lit at_)) ]) ] ]) ] ]) ].

(** Four offers, as a provider that does not honour [max] may send. *)
Definition four_offers : json :=
  JList [ segment "UA" "100" "2024-09-01T08:00:00";
          segment "DL" "200" "2024-09-01T09:30:00";
          segment "AA" "300" "2024-09-01T11:15:00";
          segment "B6" "400" "2024-09-01T13:45:00" ].

Definition event_item (name start : string) : json :=
  JDict [ (lit "name", JDict [ (lit "text", JStr (lit name)) ]);
          (lit "start", JDict [ (lit "local", JStr (lit start)) ]) ].

Definition restaurant (name : string) : json :=
  JDict [ (lit "type", JStr (lit "node"));
          (lit "tags", JDict [ (lit "amenity", JStr (lit "restaurant"));
                               (lit "name", JStr (lit name)) ]) ].

Definition request : UserRequest :=
  {| origin := lit "Boston"; destination := lit "Denver";
     start_date := Some 739130;          (* 2024-09-01 *)
     end_date := Some 739137;            (* 2024-09-08 *)
     budget := Some (1000 # 1);
     interests := Some [lit "skiing"] |}.

(** Dates supplied in the wrong order: leaving 2024-09-08, back 2024-09-01. *)
Definition reversed_request : UserRequest :=
  {| origin := lit "Boston"; destination := lit "Denver";
     start_date := Some 739137; end_date := Some 739130;
     budget := None; interests := None |}.

(** A start date and no end date. *)
Definition open_ended_request : UserRequest :=
  {| origin := lit "Boston"; destination := lit "Denver";
     start_date := Some 739130; end_date := None;
     budget := None; interests := None |}.

(** No dates at all. *)
Definition undated_request : UserRequest :=
  {| origin := lit "Boston"; destination := lit "Denver";
     start_date := None; end_date := None;
     budget := None; interests := Some [lit "skiing"] |}.

(** Leaving on 9999-12-30, no end date. *)
Definition late_request : UserRequest :=
  {| origin := lit "Boston"; destination := lit "Denver";
     start_date := Some 3652058; end_date := None;
     budget := None; interests := None |}.

(** A request for a place no table knows. *)
Definition atlantis_request : UserRequest :=
  {| origin := lit "Boston"; destination := lit "Atlantis";
     start_date := Some 739130; end_date := Some 739137;
     budget := None; interests := None |}.

(** A world in which every provider answers, [req] being what the
    extraction yields. *)
Definition world_of (req : UserRequest) : World :=
  {| now_date := 739923;                 (* 2026-11-03 *)
     getenv := fun name =>
       if str_eqb name (lit "EVENTBRITE_TOKEN") then Some (lit "tok")
       else if str_eqb name (lit "AMADEUS_API_KEY") then Some (lit "key")
       else if str_eqb name (lit "AMADEUS_API_SECRET") then Some (lit "secret")
       else None;
     stdin_line := lit "Flight from Boston to Denver Sept 1-8, budget $1000, interests skiing";
     agent_request := fun _ _ _ => Ok req;
     agent_text := fun _ _ _ => Ok (lit "Day 1: arrive in Denver.");
     new_client := fun id secret => Ok {| client_id := id; client_secret := secret |};
     flight_offers_search_get := fun _ _ => Ok four_offers;
     requests_get := fun url _ =>
       if str_eqb url overpass_url then
         Ok {| raise_for_status := Ok tt;
               response_json := Ok (JDict [ (lit "elements",
                 JList [ restaurant "Linger"; restaurant "Linger"; restaurant "Root Down";
                         JDict [ (lit "type", JStr (lit "node")) ];
                         restaurant "Guard and Grace"; restaurant "Rioja" ]) ]) |}
       else
         Ok {| raise_for_status := Ok tt;
               response_json := Ok (JDict [ (lit "events",
                 JList [ event_item "Ski Expo" "2024-09-02T10:00:00";
                         event_item "Film Night" "2024-09-03T19:00:00";
                         event_item "Jazz Brunch" "2024-09-04T11:00:00";
                         event_item "Trail Run" "2024-09-05T07:00:00" ]) ]) |};
     geocode := fun _ => Ok (Some {| latitude := 39 # 1; longitude := - 105 # 1 |}) |}.

Definition world : World := world_of request.

(** [w] with another answer from the flight provider. *)
Definition with_flight_answer (w : World) (answer : result json) : World :=
  {| now_date := now_date w; getenv := getenv w; stdin_line := stdin_line w;
     agent_request := agent_request w; agent_text := agent_text w;
     new_client := new_client w;
     flight_offers_search_get := fun _ _ => answer;
     requests_get := requests_get w;
     geocode := geocode w |}.

(** [w] with another answer from the geocoder. *)
Definition with_geocoder_answer (w : World) (answer : result (option Location)) : World :=
  {| now_date := now_date w; getenv := getenv w; stdin_line := stdin_line w;
     agent_request := agent_request w; agent_text := agent_text w;
     new_client := new_client w;
     flight_offers_search_get := flight_offers_search_get w;
     requests_get := requests_get w;
     geocode := fun _ => answer |}.

(** [w] with another answer to every HTTP request. *)
Definition with_http_answer (w : World) (answer : result Response) : World :=
  {| now_date := now_date w; getenv := getenv w; stdin_line := stdin_line w;
     agent_request := agent_request w; agent_text := agent_text w;
     new_client := new_client w;
     flight_offers_search_get := flight_offers_search_get w;
     requests_get := fun _ _ => answer;
     geocode := geocode w |}.

(** [w] without the Eventbrite token. *)
Definition without_token (w : World) : World :=
  {| now_date := now_date w;
     getenv := fun name =>
       if str_eqb name (lit "EVENTBRITE_TOKEN") then None else getenv w name;
     stdin_line := stdin_line w;
     agent_request := agent_request w; agent_text := agent_text w;
     new_client := new_client w;
     flight_offers_search_get := flight_offers_search_get w;
     requests_get := requests_get w;
     geocode := geocode w |}.

Definition geocoder_timed_out : exn :=
  Exn (OtherError (lit "GeocoderTimedOut")) (lit "Service timed out").

(** The sample world with a geocoder that times out. *)
Definition world_geocoder_down : World :=
  with_geocoder_answer world (Raise geocoder_timed_out).

Definition client : Client :=
  {| client_id := Some (lit "key"); client_secret := Some (lit "secret") |}.

(** [w] with another answer to the construction of the Amadeus client. *)
Definition with_client_answer (w : World) (answer : result Client) : World :=
  {| now_date := now_date w; getenv := getenv w; stdin_line := stdin_line w;
     agent_request := agent_request w; agent_text := agent_text w;
     new_client := fun _ _ => answer;
     flight_offers_search_get := flight_offers_search_get w;
     requests_get := requests_get w;
     geocode := geocode w |}.

(** An Overpass body with the given elements. *)
Definition overpass_body (elements : list json) : Response :=
  {| raise_for_status := Ok tt;
     response_json := Ok (JDict [ (lit "version", JFloat (6 # 10));
                                  (lit "elements", JList elements) ]) |}.

(** An element whose name tag is a number. *)
Definition numbered_element : json :=
  JDict [ (lit "type", JStr (lit "node"));
          (lit "tags", JDict [ (lit "name", JInt 5) ]) ].

(** Every provider down: the flight provider answers with an error, HTTP
    requests fail and the geocoder finds nothing. *)
Definition world_providers_down : World :=
  with_geocoder_answer
    (with_http_answer
       (with_flight_answer world (Raise (Exn ResponseError (lit "[500] Server error"))))
       (Raise (Exn (OtherError (lit "ConnectionError")) (lit "connection refused"))))
    (Ok None).

End Sample.

(** ** Vocabulary of the statements *)

(** The dates [ensure_dates] settles on. *)
Definition normal_start (w : World) (req : UserRequest) : date :=
  match start_date req with
  | Some s => s
  | None => now_date w + 14
  end.

Definition normal_end (w : World) (req : UserRequest) : date :=
  match end_date req with
  | Some e => e
  | None => normal_start w req + 7
  end.

(** No record of the table matches the place. *)
Definition unresolved (lower : str -> str) (airports : list (str * Airport))
    (place : str) : Prop :=
  forall c i, In (c, i) airports -> lower (get_city i) <> lower (strip place).

(** Events that are neither output, nor a generator call, nor a provider
    query. *)
Definition quiet (e : event) : bool :=
  match e with
  | Log _ _ | NewClient _ _ => true
  | _ => false
  end.

Definition not_found_message (place : str) : str :=
  lit "No IATA code found for city '" ++ place ++ lit "'".

(** The place [main] reports: the origin if it does not resolve, else the
    destination. *)
Definition first_unresolved (lower : str -> str) (airports : list (str * Airport))
    (req : UserRequest) : str :=
  match find_iata lower airports (origin req) with
  | Raise _ => origin req
  | Ok _ => destination req
  end.

(** No entry equals ([==]) an earlier one. *)
Definition distinct_names (names : list json) : Prop :=
  ForallOrdPairs (fun x y => py_eq x y = false) names.

(** How the spec words the rendering of a fact sequence: the literal
    "none" when it is empty, its entries joined by ", " otherwise. *)
Definition facts_or_none (facts : list str) : str :=
  match facts with
  | [] => lit "none"
  | _ => join (lit ", ") facts
  end.

(** [el.get('tags', {}).get('name')], the name [search_restaurants] reads
    off an element. *)
Definition element_name (el : json) : result json :=
  (tags <- dict_get el (lit "tags") (JDict []) ;;
   dict_get tags (lit "name") JNull)%res.

(** The names a list of candidates adds to [names] when each candidate that
    is truthy and not yet held is appended: the loop of
    [search_restaurants] without its [break]. *)
Fixpoint add_names (names candidates : list json) : list json :=
  match candidates with
  | [] => names
  | name :: rest =>
      add_names (if truthy name && negb (py_in name names)
                 then names ++ [name] else names) rest
  end.

(** Events other than output. *)
Definition silent (e : event) : bool :=
  match e with
  | Print _ => false
  | _ => true
  end.

Definition is_str (j : json) : bool :=
  match j with
  | JStr _ => true
  | _ => false
  end.

(** Unfolds the combinators of the effect layer. *)
Ltac run :=
  unfold bind, ret, lift, call, emit, log, try_except,
         lbind, lret, world, get_local, modify_local, ltry_except, with_local;
  simpl.

(** ** Properties *)

Unset Implicit Arguments.

(** *** Text *)

Lemma str_eqb_eq (s t : str) : str_eqb s t = true <-> s = t.
Proof.
  revert t; induction s as [|c s IH]; intros [|d t]; simpl; split; try congruence.
  - intros H. apply andb_true_iff in H as [Hc Hs].
    apply N.eqb_eq in Hc. apply IH in Hs. congruence.
  - intros H. injection H as -> ->.
    apply andb_true_iff. split; [apply N.eqb_refl | now apply IH].
Qed.

Lemma str_eqb_refl (s : str) : str_eqb s s = true.
Proof. now apply str_eqb_eq. Qed.

Lemma str_eqb_neq (s t : str) : str_eqb s t = false <-> s <> t.
Proof.
  split.
  - intros H E. apply str_eqb_eq in E. congruence.
  - intros H. destruct (str_eqb s t) eqn:E; [|reflexivity].
    apply str_eqb_eq in E. contradiction.
Qed.

Lemma lstrip_all_space (s : str) : forallb is_space s = true -> lstrip s = [].
Proof.
  induction s as [|c s IH]; simpl; [reflexivity|].
  intros H. apply andb_true_iff in H as [Hc Hs]. rewrite Hc. now apply IH.
Qed.

(** Text made of whitespace only strips to the empty string. *)
Lemma strip_all_space (s : str) : forallb is_space s = true -> strip s = [].
Proof.
  intros H. unfold strip, rstrip. now rewrite (lstrip_all_space s H).
Qed.

(** *** Dates *)

Lemma date_add_in_range (d n : Z) :
  0 < d + n <= MAXORDINAL -> date_add d n = Ok (d + n).
Proof.
  intros [Hlo Hhi]. unfold date_add.
  apply Z.ltb_lt in Hlo. apply Z.leb_le in Hhi. now rewrite Hlo, Hhi.
Qed.

Lemma date_add_Ok (d n r : Z) :
  date_add d n = Ok r -> r = d + n /\ 0 < r <= MAXORDINAL.
Proof.
  unfold date_add. destruct (0 <? d + n) eqn:Hlo; simpl; [|discriminate].
  destruct (d + n <=? MAXORDINAL) eqn:Hhi; [|discriminate].
  intros H. injection H as <-.
  apply Z.ltb_lt in Hlo. apply Z.leb_le in Hhi. lia.
Qed.

Lemma date_add_overflow (d n : Z) :
  MAXORDINAL < d + n ->
  date_add d n = Raise (Exn OverflowError (lit "date value out of range")).
Proof.
  intros H. unfold date_add.
  assert (E : (d + n <=? MAXORDINAL) = false) by (apply Z.leb_gt; lia).
  rewrite E. now rewrite andb_false_r.
Qed.

Lemma bind_run {A B} (m : M A) (k : A -> M B) (t : trace) :
  bind m k t
  = match m t with
    | (Ok a, t') => k a t'
    | (Raise e, t') => (Raise e, t')
    end.
Proof. reflexivity. Qed.

(** *** Normalization: [ensure_dates] *)

Section EnsureDates.

Variable isoformat : date -> str.
Variable w : World.

(** Whenever [ensure_dates] returns, it has returned the request with these
    two dates and nothing else changed. *)
Lemma ensure_dates_returns (req req' : UserRequest) (t t' : trace) :
  ensure_dates isoformat w req t = (Ok req', t') ->
  req' = {| origin := origin req; destination := destination req;
            start_date := Some (normal_start w req);
            end_date := Some (normal_end w req);
            budget := budget req; interests := interests req |}.
Proof.
  unfold ensure_dates, normal_end, normal_start.
  destruct req as [o d [s|] [e|] b i]; run.
  - intros H. now injection H as <- _.
  - destruct (date_add s 7) as [r|x] eqn:E; [|discriminate].
    apply date_add_Ok in E as [-> _]. intros H. now injection H as <- _.
  - destruct (date_add (now_date w) 14) as [r|x] eqn:E; [|discriminate].
    apply date_add_Ok in E as [-> _]. simpl. intros H. now injection H as <- _.
  - destruct (date_add (now_date w) 14) as [r|x] eqn:E; [|discriminate].
    apply date_add_Ok in E as [-> _]. simpl.
    destruct (date_add (now_date w + 14) 7) as [r|x] eqn:E; [|discriminate].
    apply date_add_Ok in E as [-> _]. intros H. now injection H as <- _.
Qed.

(** [ensure_dates] returns as soon as the dates it has to compute exist. *)
Lemma ensure_dates_total_in_range (req : UserRequest) (t : trace) :
  (start_date req = None -> 0 < now_date w + 14 <= MAXORDINAL) ->
  (end_date req = None -> 0 < normal_start w req + 7 <= MAXORDINAL) ->
  exists req' t', ensure_dates isoformat w req t = (Ok req', t').
Proof.
  unfold ensure_dates, normal_start.
  destruct req as [o d [s|] [e|] b i]; simpl; intros Hs He; run.
  - eauto.
  - rewrite (date_add_in_range s 7) by auto. eauto.
  - rewrite (date_add_in_range (now_date w) 14) by auto. simpl. eauto.
  - rewrite (date_add_in_range (now_date w) 14) by auto. simpl.
    rewrite (date_add_in_range (now_date w + 14) 7) by auto. eauto.
Qed.

(** Past [date.max] the default end date does not exist: the addition
    raises and [ensure_dates] with it. *)
Lemma ensure_dates_raises_past_date_max (req : UserRequest) (s : date) (t : trace) :
  start_date req = Some s -> end_date req = None -> MAXORDINAL < s + 7 ->
  ensure_dates isoformat w req t
    = (Raise (Exn OverflowError (lit "date value out of range")), t).
Proof.
  intros Hs He Hover. unfold ensure_dates. rewrite Hs. run. rewrite He, Hs.
  now rewrite (date_add_overflow s 7 Hover).
Qed.

End EnsureDates.

(** C1 (as amended). Once [ensure_dates] has returned, [start_date] and
    [end_date] are both present. An [end_date] that was absent on input is
    [start_date] plus 7 days, hence not earlier than [start_date]; an
    [end_date] supplied by the caller is kept as it was given, so its order
    with [start_date] is the caller's. *)
Theorem ensure_dates_present_and_default_ordered :
  forall isoformat w req t req' t',
    ensure_dates isoformat w req t = (Ok req', t') ->
    exists s e,
      start_date req' = Some s /\ end_date req' = Some e /\
      match end_date req with
      | None => e = s + 7 /\ s <= e
      | Some e0 => e = e0
      end.
Proof.
  intros isoformat w req t req' t' H.
  apply ensure_dates_returns in H. subst req'. simpl.
  exists (normal_start w req), (normal_end w req).
  repeat split; unfold normal_end; destruct (end_date req); auto; lia.
Qed.

Lemma ensure_dates_present_and_default_ordered_witness :
  ensure_dates Sample.isoformat Sample.world Sample.open_ended_request []
    = (Ok (set_end_date Sample.open_ended_request 739137),
       [Log INFO (lit "No end_date: defaulting to 2024-09-08")])
  /\ exists s e,
      start_date (set_end_date Sample.open_ended_request 739137) = Some s
      /\ end_date (set_end_date Sample.open_ended_request 739137) = Some e
      /\ e = s + 7 /\ s <= e.
Proof.
  split; [reflexivity|].
  exact (ensure_dates_present_and_default_ordered
           Sample.isoformat Sample.world Sample.open_ended_request []
           (set_end_date Sample.open_ended_request 739137)
           [Log INFO (lit "No end_date: defaulting to 2024-09-08")] eq_refl).
Defined.

(** C1 as stated fails when both dates are supplied in the wrong order:
    [ensure_dates] returns the request untouched, its [end_date]
    (2024-09-01) earlier than its [start_date] (2024-09-08). *)
Lemma ensure_dates_keeps_reversed_dates :
  ensure_dates Sample.isoformat Sample.world Sample.reversed_request []
    = (Ok Sample.reversed_request, [])
  /\ start_date Sample.reversed_request = Some 739137
  /\ end_date Sample.reversed_request = Some 739130
  /\ ~ (739137 <= 739130).
Proof. repeat split. lia. Qed.

(** C2 (as amended). [ensure_dates] returns, without an error, whenever the
    dates it has to compute stay within the calendar ([date.max],
    9999-12-31). It then sets an absent [start_date] to the current date
    plus 14 days, an absent [end_date] to the (possibly just defaulted)
    [start_date] plus 7 days, and leaves every date present on input, and
    every other field, as it was. *)
Theorem ensure_dates_defaults :
  forall isoformat w req t,
    valid_date (now_date w) ->
    (forall s, start_date req = Some s -> valid_date s) ->
    (start_date req = None -> now_date w + 14 <= MAXORDINAL) ->
    (end_date req = None -> normal_start w req + 7 <= MAXORDINAL) ->
    exists req' t',
      ensure_dates isoformat w req t = (Ok req', t')
      /\ (start_date req = None -> start_date req' = Some (now_date w + 14))
      /\ (end_date req = None ->
          exists s, start_date req' = Some s /\ end_date req' = Some (s + 7))
      /\ (forall s, start_date req = Some s -> start_date req' = Some s)
      /\ (forall e, end_date req = Some e -> end_date req' = Some e)
      /\ origin req' = origin req /\ destination req' = destination req
      /\ budget req' = budget req /\ interests req' = interests req.
Proof.
  intros isoformat w req t Hnow Hstart Hs He.
  assert (Hn : 1 <= normal_start w req).
  { unfold normal_start. destruct (start_date req) as [s|] eqn:E.
    - apply (Hstart s eq_refl).
    - unfold valid_date in Hnow. lia. }
  destruct (ensure_dates_total_in_range isoformat w req t) as (req' & t' & H).
  - intros E. unfold valid_date in Hnow. specialize (Hs E). lia.
  - intros E. specialize (He E). lia.
  - exists req', t'. split; [exact H|].
    apply ensure_dates_returns in H. subst req'. simpl.
    unfold normal_end, normal_start.
    repeat split; try reflexivity.
    + intros E. now rewrite E.
    + intros E. rewrite E. eauto.
    + intros s E. now rewrite E.
    + intros e E. now rewrite E.
Qed.

Lemma ensure_dates_defaults_witness :
  exists req' t',
    ensure_dates Sample.isoformat Sample.world Sample.undated_request [] = (Ok req', t')
    /\ (start_date Sample.undated_request = None ->
        start_date req' = Some (now_date Sample.world + 14))
    /\ (end_date Sample.undated_request = None ->
        exists s, start_date req' = Some s /\ end_date req' = Some (s + 7))
    /\ (forall s, start_date Sample.undated_request = Some s -> start_date req' = Some s)
    /\ (forall e, end_date Sample.undated_request = Some e -> end_date req' = Some e)
    /\ origin req' = origin Sample.undated_request
    /\ destination req' = destination Sample.undated_request
    /\ budget req' = budget Sample.undated_request
    /\ interests req' = interests Sample.undated_request.
Proof.
  apply (ensure_dates_defaults Sample.isoformat Sample.world Sample.undated_request []).
  - unfold valid_date, MAXORDINAL. simpl. lia.
  - simpl. discriminate.
  - intros _. unfold MAXORDINAL. simpl. lia.
  - intros _. unfold MAXORDINAL. simpl. lia.
Defined.

(** C2 as stated fails at the end of the calendar: with [start_date]
    9999-12-30 and no [end_date], adding 7 days leaves the range of
    [datetime.date] and [ensure_dates] raises [OverflowError]. *)
Lemma ensure_dates_overflows_past_date_max :
  ensure_dates Sample.isoformat Sample.world Sample.late_request []
    = (Raise (Exn OverflowError (lit "date value out of range")), []).
Proof. reflexivity. Qed.

(** *** Resolution: [find_iata] *)

Section FindIata.

Variable lower : str -> str.

(** No record before a match matches: the match is the first one. *)
Lemma scan_airports_first (pre post : list (str * Airport)) code info key :
  lower (get_city info) = key ->
  (forall c i, In (c, i) pre -> lower (get_city i) <> key) ->
  scan_airports lower (pre ++ (code, info) :: post) key = Some code.
Proof.
  intros Hm. induction pre as [|[c i] pre IH]; simpl; intros Hpre.
  - rewrite Hm. now rewrite str_eqb_refl.
  - assert (E : str_eqb (lower (get_city i)) key = false).
    { apply str_eqb_neq. apply (Hpre c i). now left. }
    rewrite E. apply IH. intros c' i' Hin. apply (Hpre c' i'). now right.
Qed.

Lemma scan_airports_Some (items : list (str * Airport)) key code :
  scan_airports lower items key = Some code ->
  exists pre info post,
    items = pre ++ (code, info) :: post
    /\ lower (get_city info) = key
    /\ forall c i, In (c, i) pre -> lower (get_city i) <> key.
Proof.
  induction items as [|[c i] items IH]; simpl; [discriminate|].
  destruct (str_eqb (lower (get_city i)) key) eqn:E.
  - intros H. injection H as ->. exists [], i, items.
    apply str_eqb_eq in E. repeat split; auto.
  - intros H. destruct (IH H) as (pre & info & post & -> & Hm & Hpre).
    exists ((c, i) :: pre), info, post. repeat split; auto.
    intros c' i' [Heq|Hin].
    + injection Heq as <- <-. now apply str_eqb_neq.
    + now apply (Hpre c' i').
Qed.

Lemma scan_airports_None (items : list (str * Airport)) key :
  scan_airports lower items key = None <->
  forall c i, In (c, i) items -> lower (get_city i) <> key.
Proof.
  induction items as [|[c i] items IH]; simpl.
  - split; [intros _ ? ? [] | reflexivity].
  - destruct (str_eqb (lower (get_city i)) key) eqn:E.
    + split; [discriminate|]. intros H. exfalso.
      apply (H c i); [now left | now apply str_eqb_eq].
    + rewrite IH. split.
      * intros H c' i' [Heq|Hin]; [|now apply (H c' i')].
        injection Heq as <- <-. now apply str_eqb_neq.
      * intros H c' i' Hin. apply (H c' i'). now right.
Qed.

(** A table that holds a match yields a code. *)
Lemma scan_airports_finds (items : list (str * Airport)) key c i :
  In (c, i) items -> lower (get_city i) = key ->
  exists code, scan_airports lower items key = Some code.
Proof.
  intros Hin Hm. destruct (scan_airports lower items key) as [code|] eqn:E.
  - now exists code.
  - exfalso. apply (proj1 (scan_airports_None items key) E c i Hin Hm).
Qed.

Lemma find_iata_Ok (airports : list (str * Airport)) city_name code :
  find_iata lower airports city_name = Ok code <->
  scan_airports lower airports (lower (strip city_name)) = Some code.
Proof.
  unfold find_iata.
  destruct (scan_airports lower airports (lower (strip city_name))); split;
    intros H; try discriminate; now injection H as ->.
Qed.

Lemma find_iata_not_found (airports : list (str * Airport)) city_name :
  (forall c i, In (c, i) airports -> lower (get_city i) <> lower (strip city_name)) ->
  find_iata lower airports city_name
    = Raise (Exn KeyError (lit "No IATA code found for city '" ++ city_name ++ lit "'")).
Proof.
  intros H. unfold find_iata.
  now rewrite (proj2 (scan_airports_None airports _) H).
Qed.

End FindIata.

(** C3. [find_iata] returns a code exactly when it is the identifier of the
    first record, in the order the table is iterated, whose city lowercased
    equals the input stripped and lowercased. In particular, with a record
    whose city is "paris" in the table, "Paris", " paris " and "PARIS"
    resolve to the same code ([str.lower] being what it is on ASCII
    text). *)
Theorem find_iata_first_match :
  forall (lower : str -> str) (airports : list (str * Airport)) (city_name : str),
    (forall code,
        find_iata lower airports city_name = Ok code <->
        exists pre info post,
          airports = pre ++ (code, info) :: post
          /\ lower (get_city info) = lower (strip city_name)
          /\ forall c i, In (c, i) pre -> lower (get_city i) <> lower (strip city_name))
    /\ ((forall s, is_ascii s = true -> lower s = map ascii_lower_char s) ->
        forall code0 info0,
          In (code0, info0) airports -> city info0 = Some (lit "paris") ->
          exists code,
            find_iata lower airports (lit "Paris") = Ok code
            /\ find_iata lower airports (lit " paris ") = Ok code
            /\ find_iata lower airports (lit "PARIS") = Ok code).
Proof.
  intros lower airports city_name. split.
  - intros code. rewrite find_iata_Ok. split.
    + apply scan_airports_Some.
    + intros (pre & info & post & -> & Hm & Hpre).
      now apply scan_airports_first.
  - intros Hascii code0 info0 Hin Hcity.
    assert (Hkey : forall s, is_ascii s = true -> map ascii_lower_char s = lit "paris" ->
                             lower s = lit "paris").
    { intros s Ha Hs. now rewrite (Hascii s Ha). }
    assert (H1 : lower (strip (lit "Paris")) = lit "paris") by now apply Hkey.
    assert (H2 : lower (strip (lit " paris ")) = lit "paris") by now apply Hkey.
    assert (H3 : lower (strip (lit "PARIS")) = lit "paris") by now apply Hkey.
    assert (H0 : lower (get_city info0) = lit "paris").
    { unfold get_city. rewrite Hcity. now apply Hkey. }
    destruct (@scan_airports_finds lower airports (lit "paris") code0 info0 Hin H0) as [code Hc].
    exists code. rewrite !find_iata_Ok, H1, H2, H3. auto.
Qed.

Lemma find_iata_first_match_witness :
  find_iata Sample.ascii_lower Sample.airports (lit " PARIS ") = Ok (lit "CDG")
  /\ exists code,
      find_iata Sample.ascii_lower Sample.airports (lit "Paris") = Ok code
      /\ find_iata Sample.ascii_lower Sample.airports (lit " paris ") = Ok code
      /\ find_iata Sample.ascii_lower Sample.airports (lit "PARIS") = Ok code.
Proof.
  destruct (find_iata_first_match Sample.ascii_lower Sample.airports (lit " PARIS "))
    as [Hfirst Hparis].
  split.
  - apply Hfirst.
    exists [ (lit "BOS", {| city := Some (lit "Boston") |});
             (lit "ZZZ", {| city := None |}) ],
           {| city := Some (lit "Paris") |},
           [ (lit "DEN", {| city := Some (lit "Denver") |});
             (lit "ORY", {| city := Some (lit "Paris") |});
             (lit "PRX", {| city := Some (lit "paris") |}) ].
    split; [reflexivity|]. split; [reflexivity|].
    intros c i [H|[H|[]]]; injection H as <- <-; discriminate.
  - apply (Hparis (fun s _ => eq_refl) (lit "PRX") {| city := Some (lit "paris") |}).
    + simpl. tauto.
    + reflexivity.
Defined.

(** C10. For an input that is empty or whitespace only, [find_iata] does not
    raise as soon as the table holds a record that lacks a city or has an
    empty one: it returns the code of the first such record, the missing
    city standing for the empty string in the comparison ([str.lower]
    keeping empty text empty and nothing else). *)
Theorem find_iata_blank_input :
  forall (lower : str -> str) (airports : list (str * Airport)) (city_name : str),
    (forall s, lower s = [] <-> s = []) ->
    forallb is_space city_name = true ->
    (forall code info,
        In (code, info) airports ->
        city info = None \/ city info = Some [] ->
        exists code', find_iata lower airports city_name = Ok code')
    /\ (forall pre code info post,
        airports = pre ++ (code, info) :: post ->
        city info = None \/ city info = Some [] ->
        (forall c i, In (c, i) pre -> city i <> None /\ city i <> Some []) ->
        find_iata lower airports city_name = Ok code).
Proof.
  intros lower airports city_name Hlower Hblank.
  assert (Hkey : lower (strip city_name) = []).
  { rewrite (strip_all_space city_name Hblank). now apply Hlower. }
  assert (Hempty : forall info, city info = None \/ city info = Some [] ->
                                lower (get_city info) = []).
  { intros info [H|H]; unfold get_city; rewrite H; now apply Hlower. }
  split.
  - intros code info Hin Hcity.
    destruct (@scan_airports_finds lower airports (lower (strip city_name)) code info Hin)
      as [code' Hc].
    + rewrite Hkey. now apply Hempty.
    + exists code'. now apply find_iata_Ok.
  - intros pre code info post -> Hcity Hpre.
    apply find_iata_Ok. apply scan_airports_first.
    + rewrite Hkey. now apply Hempty.
    + intros c i Hin. rewrite Hkey. intros E. apply (proj1 (Hlower _)) in E.
      destruct (Hpre c i Hin) as [Hn He]. unfold get_city in E.
      destruct (city i) as [name|]; [|now apply Hn]. subst name. now apply He.
Qed.

Lemma find_iata_blank_input_witness :
  (exists code', find_iata Sample.ascii_lower Sample.airports (lit "   ") = Ok code')
  /\ find_iata Sample.ascii_lower Sample.airports (lit "   ") = Ok (lit "ZZZ").
Proof.
  assert (Hlower : forall s, Sample.ascii_lower s = [] <-> s = []).
  { intros [|c s]; split; intros H; try reflexivity; discriminate. }
  destruct (find_iata_blank_input Sample.ascii_lower Sample.airports (lit "   ")
              Hlower eq_refl) as [Hsome Hfirst].
  split.
  - apply (Hsome (lit "ZZZ") {| city := None |}); [simpl; tauto | now left].
  - apply (Hfirst [ (lit "BOS", {| city := Some (lit "Boston") |}) ]
                  (lit "ZZZ") {| city := None |}
                  [ (lit "CDG", {| city := Some (lit "Paris") |});
                    (lit "DEN", {| city := Some (lit "Denver") |});
                    (lit "ORY", {| city := Some (lit "Paris") |});
                    (lit "PRX", {| city := Some (lit "paris") |}) ]).
    + reflexivity.
    + now left.
    + intros c i [H|[]]. injection H as <- <-. split; discriminate.
Defined.

(** *** The controller when resolution fails *)

Section Controller.

Variable lower : str -> str.
Variable py_str : json -> str.
Variable py_repr : str -> str.
Variable isoformat : date -> str.
Variable airports : list (str * Airport).
Variable w : World.

Let api_key := getenv w (lit "AMADEUS_API_KEY").
Let api_secret := getenv w (lit "AMADEUS_API_SECRET").

Lemma ensure_dates_logs (req : UserRequest) (t : trace) :
  exists logs,
    snd (ensure_dates isoformat w req t) = t ++ logs /\ forallb quiet logs = true.
Proof.
  unfold ensure_dates. destruct req as [o d [s|] [e|] b i]; run.
  - exists []. now rewrite app_nil_r.
  - destruct (date_add s 7); simpl.
    + eexists [_]. split; reflexivity.
    + exists []. now rewrite app_nil_r.
  - destruct (date_add (now_date w) 14); simpl.
    + eexists [_]. split; reflexivity.
    + exists []. now rewrite app_nil_r.
  - destruct (date_add (now_date w) 14) as [s|x]; simpl.
    + destruct (date_add s 7); simpl.
      * eexists [_; _]. rewrite <- app_assoc. split; reflexivity.
      * eexists [_]. split; reflexivity.
    + exists []. now rewrite app_nil_r.
Qed.

(** [find_iata] raises nothing but its own [KeyError]. *)
Lemma find_iata_Raise (place : str) (e : exn) :
  find_iata lower airports place = Raise e ->
  e = Exn KeyError (not_found_message place) /\ unresolved lower airports place.
Proof.
  unfold find_iata.
  destruct (scan_airports lower airports (lower (strip place))) eqn:E; [discriminate|].
  intros H. injection H as <-. split; [reflexivity|].
  unfold unresolved. now apply scan_airports_None.
Qed.

Lemma plan_trip_unresolved (req req1 : UserRequest) (t t1 : trace) (amadeus : Client) :
  unresolved lower airports (origin req) \/ unresolved lower airports (destination req) ->
  ensure_dates isoformat w req t = (Ok req1, t1) ->
  new_client w api_key api_secret = Ok amadeus ->
  plan_trip lower py_str py_repr isoformat airports w req t
    = (Ok tt,
       t1 ++ [NewClient api_key api_secret]
          ++ [Log ERROR (lit "IATA lookup failed: "
                         ++ py_repr (not_found_message (first_unresolved lower airports req)))]).
Proof.
  intros Hun Hd Hc. unfold plan_trip, first_unresolved.
  unfold bind at 1. rewrite Hd.
  assert (Ho : origin req1 = origin req)
    by (apply ensure_dates_returns in Hd; now subst req1).
  assert (Hde : destination req1 = destination req)
    by (apply ensure_dates_returns in Hd; now subst req1).
  fold api_key api_secret. run. rewrite Hc, Ho, Hde.
  destruct (find_iata lower airports (origin req)) as [oc|e] eqn:Eo; simpl.
  - destruct (find_iata lower airports (destination req)) as [dc|e] eqn:Ed; simpl.
    + exfalso. destruct Hun as [Hun|Hun].
      * rewrite (find_iata_not_found lower airports (origin req) Hun) in Eo. discriminate.
      * rewrite (find_iata_not_found lower airports (destination req) Hun) in Ed. discriminate.
    + apply find_iata_Raise in Ed as [-> _]. simpl.
      now rewrite <- app_assoc.
  - apply find_iata_Raise in Eo as [-> _]. simpl.
    now rewrite <- app_assoc.
Qed.

Lemma plan_trip_unresolved_quiet (req : UserRequest) (t : trace) :
  unresolved lower airports (origin req) \/ unresolved lower airports (destination req) ->
  exists r logs,
    plan_trip lower py_str py_repr isoformat airports w req t = (r, t ++ logs)
    /\ forallb quiet logs = true.
Proof.
  intros Hun.
  destruct (ensure_dates_logs req t) as (logs & Ht & Hq).
  destruct (ensure_dates isoformat w req t) as [[req1|e] t1] eqn:Hd; simpl in Ht; subst t1.
  - destruct (new_client w api_key api_secret) as [amadeus|e] eqn:Hc.
    + rewrite (plan_trip_unresolved req req1 t (t ++ logs) amadeus Hun Hd Hc).
      eexists _, (logs ++ [_] ++ [_]). rewrite <- !app_assoc. split; [reflexivity|].
      rewrite forallb_app, Hq. reflexivity.
    + unfold plan_trip. unfold bind at 1. rewrite Hd.
      fold api_key api_secret. run. rewrite Hc.
      eexists _, (logs ++ [_]). rewrite <- !app_assoc. split; [reflexivity|].
      rewrite forallb_app, Hq. reflexivity.
  - unfold plan_trip. unfold bind at 1. rewrite Hd.
    eexists _, logs. split; [reflexivity|assumption].
Qed.

End Controller.

(** C4. When no record matches a place, [find_iata] raises the [KeyError]
    whose message names that place, and returns no code. In [main] the
    failure ends the run: once the origin or the destination does not
    resolve, nothing is printed and neither the providers nor the narrative
    generator are called; when the earlier steps went through, the run logs
    "IATA lookup failed" with the message naming the place and returns. *)
Theorem find_iata_failure_is_fatal :
  forall (lower : str -> str) (py_str : json -> str) (py_repr : str -> str)
         (isoformat : date -> str) (airports : list (str * Airport)) (w : World),
    (forall place,
        unresolved lower airports place ->
        find_iata lower airports place = Raise (Exn KeyError (not_found_message place)))
    /\ (forall req,
        unresolved lower airports (origin req) \/ unresolved lower airports (destination req) ->
        (forall t, exists r logs,
            plan_trip lower py_str py_repr isoformat airports w req t = (r, t ++ logs)
            /\ forallb quiet logs = true)
        /\ (forall t req1 t1 amadeus,
            ensure_dates isoformat w req t = (Ok req1, t1) ->
            new_client w (getenv w (lit "AMADEUS_API_KEY"))
                         (getenv w (lit "AMADEUS_API_SECRET")) = Ok amadeus ->
            exists place,
              (place = origin req \/ place = destination req)
              /\ unresolved lower airports place
              /\ plan_trip lower py_str py_repr isoformat airports w req t
                 = (Ok tt,
                    t1 ++ [NewClient (getenv w (lit "AMADEUS_API_KEY"))
                                     (getenv w (lit "AMADEUS_API_SECRET"));
                           Log ERROR (lit "IATA lookup failed: "
                                      ++ py_repr (not_found_message place))]))
        /\ (forall t,
            agent_request w (agent_model w) extraction_system_prompt (stdin_line w) = Ok req ->
            exists r logs,
              main lower py_str py_repr isoformat airports w t
              = (r, t ++ [Input (lit "Enter your travel request: ");
                          RunAgent (agent_model w) extraction_system_prompt (stdin_line w)]
                      ++ logs)
              /\ forallb quiet logs = true)).
Proof.
  intros lower py_str py_repr isoformat airports w. split.
  - intros place H. now apply find_iata_not_found.
  - intros req Hun. split; [|split].
    + intros t. now apply plan_trip_unresolved_quiet.
    + intros t req1 t1 amadeus Hd Hc.
      exists (first_unresolved lower airports req). split; [|split].
      * unfold first_unresolved. destruct (find_iata lower airports (origin req)); auto.
      * unfold first_unresolved.
        destruct (find_iata lower airports (origin req)) as [oc|e] eqn:Eo.
        -- destruct Hun as [Hun|Hun]; [|exact Hun].
           rewrite (find_iata_not_found lower airports (origin req) Hun) in Eo. discriminate.
        -- now apply find_iata_Raise in Eo.
      * now apply (plan_trip_unresolved lower py_str py_repr isoformat airports w
                     req req1 t t1 amadeus).
    + intros t Hparse. unfold main, parse_user_request. run. rewrite Hparse.
      destruct (plan_trip_unresolved_quiet lower py_str py_repr isoformat airports w req
                  ((t ++ [Input (lit "Enter your travel request: ")])
                     ++ [RunAgent (agent_model w) extraction_system_prompt (stdin_line w)])
                  Hun) as (r & logs & Hp & Hq).
      exists r, logs. split; [|exact Hq].
      rewrite Hp. now rewrite <- !app_assoc.
Qed.

Lemma find_iata_failure_is_fatal_witness :
  unresolved Sample.ascii_lower Sample.airports (lit "Atlantis")
  /\ find_iata Sample.ascii_lower Sample.airports (lit "Atlantis")
     = Raise (Exn KeyError (lit "No IATA code found for city 'Atlantis'"))
  /\ exists r logs,
      main Sample.ascii_lower Sample.py_str Sample.py_repr Sample.isoformat
           Sample.airports (Sample.world_of Sample.atlantis_request) []
      = (r, [] ++ [Input (lit "Enter your travel request: ");
                   RunAgent (agent_model (Sample.world_of Sample.atlantis_request))
                            extraction_system_prompt
                            (stdin_line (Sample.world_of Sample.atlantis_request))]
               ++ logs)
      /\ forallb quiet logs = true.
Proof.
  assert (Hun : unresolved Sample.ascii_lower Sample.airports (lit "Atlantis")).
  { unfold unresolved. now apply scan_airports_None. }
  destruct (find_iata_failure_is_fatal Sample.ascii_lower Sample.py_str Sample.py_repr
              Sample.isoformat Sample.airports (Sample.world_of Sample.atlantis_request))
    as [Hraise Hfatal].
  split; [exact Hun|]. split.
  - exact (Hraise (lit "Atlantis") Hun).
  - destruct (Hfatal Sample.atlantis_request (or_intror Hun)) as (_ & _ & Hmain).
    exact (Hmain [] eq_refl).
Defined.

(** The run for a destination no record matches: the request is read and
    extracted, the client is built, the lookup fails and is logged, and
    [main] returns. *)
Remark main_unresolved_destination :
  main Sample.ascii_lower Sample.py_str Sample.py_repr Sample.isoformat
       Sample.airports (Sample.world_of Sample.atlantis_request) []
  = (Ok tt,
     [ Input (lit "Enter your travel request: ");
       RunAgent (lit "google-gla:gemini-2.0-flash") extraction_system_prompt
                (stdin_line Sample.world);
       NewClient (Some (lit "key")) (Some (lit "secret"));
       Log ERROR (lit "IATA lookup failed: "
                  ++ [34%N] ++ lit "No IATA code found for city 'Atlantis'" ++ [34%N]) ]).
Proof. reflexivity. Qed.

(** *** Flight search *)

Lemma map_result_length {A B} (f : A -> result B) (xs : list A) (ys : list B) :
  map_result f xs = Ok ys -> List.length ys = List.length xs.
Proof.
  revert ys. induction xs as [|x xs IH]; simpl; intros ys H.
  - now injection H as <-.
  - destruct (f x) as [y|e]; simpl in H; [|discriminate].
    destruct (map_result f xs) as [ys'|e]; simpl in H; [|discriminate].
    injection H as <-. simpl. now rewrite (IH ys' eq_refl).
Qed.

Section Flights.

Variable py_str : json -> str.
Variable py_repr : str -> str.
Variable isoformat : date -> str.
Variable w : World.

(** When every offer has the fields read, a loop whose body appends the
    descriptor of its offer appends one descriptor per offer, in order. *)
Lemma for_each_offer (body : json -> Local (list str) unit)
    (offers : list json) (ds flights : list str) (t : trace) :
  (forall offer fl,
      body offer (fl, t)
      = match flight_descriptor py_str offer with
        | Ok d => (Ok tt, (fl ++ [d], t))
        | Raise x => (Raise x, (fl, t))
        end) ->
  map_result (flight_descriptor py_str) offers = Ok ds ->
  for_each offers body (flights, t) = (Ok tt, (flights ++ ds, t)).
Proof.
  intros Hbody. revert ds flights.
  induction offers as [|offer offers IH]; simpl; intros ds flights H.
  - injection H as <-. now rewrite app_nil_r.
  - destruct (flight_descriptor py_str offer) as [d|x] eqn:Ed; simpl in H; [|discriminate].
    destruct (map_result (flight_descriptor py_str) offers) as [ds'|x]; simpl in H;
      [|discriminate].
    injection H as <-.
    unfold lbind. rewrite Hbody, Ed.
    rewrite (IH ds' (flights ++ [d]) eq_refl). now rewrite <- app_assoc.
Qed.

Lemma search_flights_provider_error (amadeus : Client) (origin_code dest_code : str)
    (s e : date) (x : exn) (t : trace) :
  let params := flight_params origin_code dest_code (isoformat s) (isoformat e) in
  flight_offers_search_get w amadeus params = Raise x ->
  is_ResponseError x = true ->
  search_flights py_str py_repr isoformat w amadeus origin_code dest_code (Some s) (Some e) t
    = (Ok [], t ++ [FlightOffersSearch params;
                    Log ERROR (lit "Flight search error: " ++ exn_str py_repr x)]).
Proof.
  intros params Hget Hx. unfold search_flights. run. fold params.
  rewrite Hget. simpl. rewrite Hx. simpl. now rewrite <- app_assoc.
Qed.

Lemma search_flights_offers (amadeus : Client) (origin_code dest_code : str)
    (s e : date) (data : json) (offers : list json) (ds : list str) (t : trace) :
  let params := flight_params origin_code dest_code (isoformat s) (isoformat e) in
  flight_offers_search_get w amadeus params = Ok data ->
  iterate (py_or data (JList [])) = Ok offers ->
  map_result (flight_descriptor py_str) offers = Ok ds ->
  search_flights py_str py_repr isoformat w amadeus origin_code dest_code (Some s) (Some e) t
    = (Ok ds, match ds with
              | [] => t ++ [FlightOffersSearch params;
                            Log WARNING (lit "No flights found.")]
              | _ => t ++ [FlightOffersSearch params]
              end).
Proof.
  intros params Hget Hit Hds. unfold search_flights. run. fold params.
  rewrite Hget. simpl. rewrite Hit. simpl.
  erewrite for_each_offer; [ | | exact Hds].
  2:{ intros offer fl. destruct (flight_descriptor py_str offer); reflexivity. }
  simpl.
  destruct ds as [|d ds]; simpl.
  - now rewrite <- app_assoc.
  - reflexivity.
Qed.

End Flights.

(** C5 (as amended). [search_flights] asks the provider for at most 3
    offers ([max] is 3) and returns one descriptor per offer the provider
    sends, in the provider's order: at most 3 whenever the provider sends at
    most 3. On a provider [ResponseError] it logs the error and returns the
    empty list; on an absent or empty offer list it logs a warning and
    returns the empty list. In these cases, the offers having the fields
    read, nothing is raised. *)
Theorem search_flights_one_descriptor_per_offer :
  forall (py_str : json -> str) (py_repr : str -> str) (isoformat : date -> str)
         (w : World) (amadeus : Client) (origin_code dest_code : str)
         (s e : date) (t : trace),
    let params := flight_params origin_code dest_code (isoformat s) (isoformat e) in
    let run_search :=
      search_flights py_str py_repr isoformat w amadeus origin_code dest_code
                     (Some s) (Some e) t in
    (forall x,
        flight_offers_search_get w amadeus params = Raise x ->
        is_ResponseError x = true ->
        run_search
        = (Ok [], t ++ [FlightOffersSearch params;
                        Log ERROR (lit "Flight search error: " ++ exn_str py_repr x)]))
    /\ (forall data,
        flight_offers_search_get w amadeus params = Ok data ->
        truthy data = false ->
        run_search
        = (Ok [], t ++ [FlightOffersSearch params; Log WARNING (lit "No flights found.")]))
    /\ (forall data offers ds,
        flight_offers_search_get w amadeus params = Ok data ->
        iterate (py_or data (JList [])) = Ok offers ->
        map_result (flight_descriptor py_str) offers = Ok ds ->
        fst run_search = Ok ds
        /\ List.length ds = List.length offers
        /\ ((List.length offers <= 3)%nat -> (List.length ds <= 3)%nat)).
Proof.
  intros py_str py_repr isoformat w amadeus origin_code dest_code s e t params run_search.
  split; [|split].
  - intros x Hget Hx. now apply search_flights_provider_error.
  - intros data Hget Hfalse.
    apply (search_flights_offers py_str py_repr isoformat w amadeus origin_code dest_code
             s e data [] [] t Hget); [|reflexivity].
    unfold py_or. now rewrite Hfalse.
  - intros data offers ds Hget Hit Hds.
    pose proof (map_result_length _ _ _ Hds) as Hlen.
    split; [|split]; [|exact Hlen|lia].
    unfold run_search.
    now rewrite (search_flights_offers py_str py_repr isoformat w amadeus origin_code
                   dest_code s e data offers ds t Hget Hit Hds).
Qed.

Lemma search_flights_one_descriptor_per_offer_witness :
  fst (search_flights Sample.py_str Sample.py_repr Sample.isoformat
         (Sample.with_flight_answer Sample.world (Ok (JList [Sample.segment "UA" "100" "2024-09-01T08:00:00"])))
         Sample.client (lit "BOS") (lit "DEN") (Some 739130) (Some 739137) [])
    = Ok [lit "UA100 on 2024-09-01T08:00:00"]
  /\ search_flights Sample.py_str Sample.py_repr Sample.isoformat
       (Sample.with_flight_answer Sample.world (Ok JNull))
       Sample.client (lit "BOS") (lit "DEN") (Some 739130) (Some 739137) []
     = (Ok [], [] ++ [FlightOffersSearch
                        (flight_params (lit "BOS") (lit "DEN")
                           (Sample.isoformat 739130) (Sample.isoformat 739137));
                      Log WARNING (lit "No flights found.")])
  /\ search_flights Sample.py_str Sample.py_repr Sample.isoformat
       (Sample.with_flight_answer Sample.world
          (Raise (Exn ResponseError (lit "[401] Unauthorized"))))
       Sample.client (lit "BOS") (lit "DEN") (Some 739130) (Some 739137) []
     = (Ok [], [] ++ [FlightOffersSearch
                        (flight_params (lit "BOS") (lit "DEN")
                           (Sample.isoformat 739130) (Sample.isoformat 739137));
                      Log ERROR (lit "Flight search error: "
                                 ++ exn_str Sample.py_repr
                                      (Exn ResponseError (lit "[401] Unauthorized")))]).
Proof.
  split; [|split].
  - apply (search_flights_one_descriptor_per_offer Sample.py_str Sample.py_repr
             Sample.isoformat
             (Sample.with_flight_answer Sample.world
                (Ok (JList [Sample.segment "UA" "100" "2024-09-01T08:00:00"])))
             Sample.client (lit "BOS") (lit "DEN") 739130 739137 []
           ) with (data := JList [Sample.segment "UA" "100" "2024-09-01T08:00:00"])
                  (offers := [Sample.segment "UA" "100" "2024-09-01T08:00:00"]);
      reflexivity.
  - apply (search_flights_one_descriptor_per_offer Sample.py_str Sample.py_repr
             Sample.isoformat (Sample.with_flight_answer Sample.world (Ok JNull))
             Sample.client (lit "BOS") (lit "DEN") 739130 739137 []) with (data := JNull);
      reflexivity.
  - apply (search_flights_one_descriptor_per_offer Sample.py_str Sample.py_repr
             Sample.isoformat
             (Sample.with_flight_answer Sample.world
                (Raise (Exn ResponseError (lit "[401] Unauthorized"))))
             Sample.client (lit "BOS") (lit "DEN") 739130 739137 []);
      reflexivity.
Defined.

(** C5 as stated fails when the provider sends more than 3 offers: the four
    offers of the sample world come back as four descriptors. *)
Lemma search_flights_returns_four_offers :
  exists flights t',
    search_flights Sample.py_str Sample.py_repr Sample.isoformat Sample.world
      Sample.client (lit "BOS") (lit "DEN") (Some 739130) (Some 739137) []
    = (Ok flights, t')
    /\ flights = [ lit "UA100 on 2024-09-01T08:00:00";
                   lit "DL200 on 2024-09-01T09:30:00";
                   lit "AA300 on 2024-09-01T11:15:00";
                   lit "B6400 on 2024-09-01T13:45:00" ]
    /\ List.length flights = 4%nat
    /\ ~ (List.length flights <= 3)%nat.
Proof.
  eexists _, _. split; [reflexivity|]. split; [reflexivity|]. split; [reflexivity|].
  simpl. lia.
Qed.

(** An offer without the fields read is not a [ResponseError]: the
    [KeyError] of the subscript leaves [search_flights]. *)
Remark search_flights_offer_without_itineraries :
  search_flights Sample.py_str Sample.py_repr Sample.isoformat
    (Sample.with_flight_answer Sample.world (Ok (JList [JDict []])))
    Sample.client (lit "BOS") (lit "DEN") (Some 739130) (Some 739137) []
  = (Raise (Exn KeyError (lit "itineraries")),
     [FlightOffersSearch (flight_params (lit "BOS") (lit "DEN")
                            (lit "2024-09-01") (lit "2024-09-08"))]).
Proof. reflexivity. Qed.

(** *** Event search *)

Section Events.

Variable py_str : json -> str.
Variable isoformat : date -> str.
Variable w : World.

(** The comprehension runs over [data[:3]]: at most three descriptors. *)
Lemma events_of_body_length (body : json) (evs : list str) :
  events_of_body py_str body = Ok evs -> (List.length evs <= 3)%nat.
Proof.
  unfold events_of_body.
  destruct (dict_get body (lit "events") (JList [])) as [data|x]; simpl; [|discriminate].
  destruct (slice3 data) as [first3|x] eqn:Es; simpl; [|discriminate].
  destruct (iterate first3) as [items|x] eqn:Ei; simpl; [|discriminate].
  intros H. rewrite (map_result_length _ _ _ H).
  destruct data as [| | | |s|xs|]; try discriminate;
    simpl in Es; injection Es as <-; simpl in Ei; injection Ei as <-.
  - rewrite length_map. destruct s as [|a [|b [|c s]]]; simpl; lia.
  - destruct xs as [|a [|b [|c xs]]]; simpl; lia.
Qed.

Let token := getenv w (lit "EVENTBRITE_TOKEN").

Lemma search_events_no_token (city : str) (start end_ : option date)
    (interests : list str) (t : trace) :
  no_token token = true ->
  search_events py_str isoformat w city start end_ interests t
    = (Ok [], t ++ [Log WARNING (lit "No Eventbrite token; skipping events.")]).
Proof.
  intros H. unfold search_events. fold token. now rewrite H.
Qed.

(** With a token, the outcome is decided by the four steps of the [try]
    block: any of them raising gives the empty list and the error notice. *)
Lemma search_events_with_token (city : str) (s e : date)
    (interests : list str) (t : trace) :
  no_token token = false ->
  let params :=
    event_params city (isoformat s) (isoformat e)
                 match token with Some tk => tk | None => [] end interests in
  search_events py_str isoformat w city (Some s) (Some e) interests t
    = match (r <- requests_get w eventbrite_url params ;;
             _ <- raise_for_status r ;;
             body <- response_json r ;;
             events_of_body py_str body)%res with
      | Ok evs => (Ok evs, t ++ [RequestsGet eventbrite_url params])
      | Raise _ => (Ok [], t ++ [RequestsGet eventbrite_url params;
                                 Log ERROR (lit "Event search error: No Event Found")])
      end.
Proof.
  intros H params. unfold search_events. fold token. rewrite H. run. fold params.
  destruct (requests_get w eventbrite_url params) as [r|x]; simpl;
    [|now rewrite <- app_assoc].
  destruct (raise_for_status r) as [[]|x]; simpl; [|now rewrite <- app_assoc].
  destruct (response_json r) as [body|x]; simpl; [|now rewrite <- app_assoc].
  destruct (events_of_body py_str body) as [evs|x]; simpl; [reflexivity|].
  now rewrite <- app_assoc.
Qed.

End Events.

(** C7. [search_events] always returns, with at most 3 descriptors. Without
    a token (none set, or an empty one) it logs a warning and returns the
    empty list without a request to the provider. With a token, a failure
    of the request, of the status check, of the decoding of the body or of
    the reading of the events is caught: the result is the empty list. *)
Theorem search_events_contained :
  forall (py_str : json -> str) (isoformat : date -> str) (w : World)
         (city : str) (s e : date) (interests : list str) (t : trace),
    let token := getenv w (lit "EVENTBRITE_TOKEN") in
    let params :=
      event_params city (isoformat s) (isoformat e)
                   match token with Some tk => tk | None => [] end interests in
    let outcome := search_events py_str isoformat w city (Some s) (Some e) interests t in
    let failed :=
      (Ok [], t ++ [RequestsGet eventbrite_url params;
                    Log ERROR (lit "Event search error: No Event Found")]) in
    (exists evs t', outcome = (Ok evs, t') /\ (List.length evs <= 3)%nat)
    /\ (no_token token = true ->
        outcome = (Ok [], t ++ [Log WARNING (lit "No Eventbrite token; skipping events.")]))
    /\ (no_token token = false ->
        (forall x, requests_get w eventbrite_url params = Raise x -> outcome = failed)
        /\ (forall r x,
               requests_get w eventbrite_url params = Ok r ->
               raise_for_status r = Raise x -> outcome = failed)
        /\ (forall r x,
               requests_get w eventbrite_url params = Ok r ->
               raise_for_status r = Ok tt ->
               response_json r = Raise x -> outcome = failed)
        /\ (forall r body x,
               requests_get w eventbrite_url params = Ok r ->
               raise_for_status r = Ok tt ->
               response_json r = Ok body ->
               events_of_body py_str body = Raise x -> outcome = failed)
        /\ (forall r body evs,
               requests_get w eventbrite_url params = Ok r ->
               raise_for_status r = Ok tt ->
               response_json r = Ok body ->
               events_of_body py_str body = Ok evs ->
               outcome = (Ok evs, t ++ [RequestsGet eventbrite_url params]))).
Proof.
  intros py_str isoformat w city s e interests t token params outcome failed.
  split; [|split].
  - destruct (no_token token) eqn:Htok.
    + exists [], (t ++ [Log WARNING (lit "No Eventbrite token; skipping events.")]).
      split; [|simpl; lia]. now apply search_events_no_token.
    + unfold outcome.
      rewrite (search_events_with_token py_str isoformat w city s e interests t Htok).
      fold token. fold params.
      destruct (requests_get w eventbrite_url params) as [r|x]; simpl;
        [|eexists _, _; split; [reflexivity|simpl; lia]].
      destruct (raise_for_status r) as [[]|x]; simpl;
        [|eexists _, _; split; [reflexivity|simpl; lia]].
      destruct (response_json r) as [body|x]; simpl;
        [|eexists _, _; split; [reflexivity|simpl; lia]].
      destruct (events_of_body py_str body) as [evs|x] eqn:Eb; simpl;
        [|eexists _, _; split; [reflexivity|simpl; lia]].
      exists evs, (t ++ [RequestsGet eventbrite_url params]).
      split; [reflexivity|]. now apply (events_of_body_length py_str body).
  - intros Htok. now apply search_events_no_token.
  - intros Htok. unfold outcome.
    rewrite (search_events_with_token py_str isoformat w city s e interests t Htok).
    fold token. fold params.
    repeat split.
    + intros x ->. reflexivity.
    + intros r x -> Hs. simpl. now rewrite Hs.
    + intros r x -> Hs Hj. simpl. now rewrite Hs, Hj.
    + intros r body x -> Hs Hj Hb. simpl. rewrite Hs, Hj. simpl. now rewrite Hb.
    + intros r body evs -> Hs Hj Hb. simpl. rewrite Hs, Hj. simpl. now rewrite Hb.
Qed.

Lemma search_events_contained_witness :
  search_events Sample.py_str Sample.isoformat (Sample.without_token Sample.world)
    (lit "Denver") (Some 739130) (Some 739137) [lit "skiing"] []
    = (Ok [], [] ++ [Log WARNING (lit "No Eventbrite token; skipping events.")])
  /\ search_events Sample.py_str Sample.isoformat
       (Sample.with_http_answer Sample.world
          (Raise (Exn (OtherError (lit "ConnectionError")) (lit "connection refused"))))
       (lit "Denver") (Some 739130) (Some 739137) [lit "skiing"] []
     = (Ok [], [] ++ [RequestsGet eventbrite_url
                        (event_params (lit "Denver") (lit "2024-09-01") (lit "2024-09-08")
                                      (lit "tok") [lit "skiing"]);
                      Log ERROR (lit "Event search error: No Event Found")])
  /\ search_events Sample.py_str Sample.isoformat Sample.world
       (lit "Denver") (Some 739130) (Some 739137) [lit "skiing"] []
     = (Ok [ lit "Ski Expo at 2024-09-02T10:00:00";
             lit "Film Night at 2024-09-03T19:00:00";
             lit "Jazz Brunch at 2024-09-04T11:00:00" ],
        [] ++ [RequestsGet eventbrite_url
                 (event_params (lit "Denver") (lit "2024-09-01") (lit "2024-09-08")
                               (lit "tok") [lit "skiing"])]).
Proof.
  split; [|split].
  - apply (search_events_contained Sample.py_str Sample.isoformat
             (Sample.without_token Sample.world)
             (lit "Denver") 739130 739137 [lit "skiing"] []).
    reflexivity.
  - apply (search_events_contained Sample.py_str Sample.isoformat
             (Sample.with_http_answer Sample.world
                (Raise (Exn (OtherError (lit "ConnectionError")) (lit "connection refused"))))
             (lit "Denver") 739130 739137 [lit "skiing"] [])
      with (x := Exn (OtherError (lit "ConnectionError")) (lit "connection refused"));
      reflexivity.
  - refine (proj2 (proj2 (proj2 (proj2 (proj2 (proj2
             (search_events_contained Sample.py_str Sample.isoformat Sample.world
                (lit "Denver") 739130 739137 [lit "skiing"] [])) eq_refl))))
             _ _ _ eq_refl eq_refl eq_refl eq_refl).
Defined.

(** *** Restaurant search *)

Lemma distinct_names_snoc (names : list json) (name : json) :
  distinct_names names -> py_in name names = false ->
  distinct_names (names ++ [name]).
Proof.
  unfold distinct_names, py_in. induction 1 as [|x names Hx Hnames IH]; simpl; intros Hin.
  - repeat constructor.
  - apply orb_false_iff in Hin as [Hxn Hin]. constructor.
    + apply Forall_app. split; [exact Hx|]. now constructor.
    + now apply IH.
Qed.

(** On names that are strings, this is the absence of duplicates. *)
Lemma distinct_names_strings (names : list str) :
  distinct_names (map JStr names) -> NoDup names.
Proof.
  unfold distinct_names. induction names as [|x names IH]; simpl; intros H.
  - constructor.
  - inversion H as [|? ? Hx Hnames]; subst. constructor; [|now apply IH].
    intros Hin. rewrite Forall_forall in Hx.
    specialize (Hx (JStr x) (in_map JStr _ _ Hin)). simpl in Hx.
    now rewrite str_eqb_refl in Hx.
Qed.

(** The loop keeps fewer than three distinct names until it returns. *)
Lemma collect_names_bounded (elements names result : list json) :
  (List.length names < 3)%nat -> distinct_names names ->
  collect_names elements names = Ok result ->
  (List.length result <= 3)%nat /\ distinct_names result.
Proof.
  revert names. induction elements as [|el elements IH]; simpl; intros names Hlen Hd H.
  - injection H as <-. split; [lia|exact Hd].
  - destruct (dict_get el (lit "tags") (JDict [])) as [tags|x]; simpl in H; [|discriminate].
    destruct (dict_get tags (lit "name") JNull) as [name|x]; simpl in H; [|discriminate].
    set (names' := if truthy name && negb (py_in name names)
                   then names ++ [name] else names) in H.
    assert (Hlen' : (List.length names' <= 3)%nat).
    { unfold names'. destruct (truthy name && negb (py_in name names)).
      - rewrite length_app. simpl. lia.
      - lia. }
    assert (Hd' : distinct_names names').
    { unfold names'. destruct (truthy name && negb (py_in name names)) eqn:E.
      - apply andb_true_iff in E as [_ E]. apply negb_true_iff in E.
        now apply distinct_names_snoc.
      - exact Hd. }
    change ((if (3 <=? List.length names')%nat then Ok names'
             else collect_names elements names') = Ok result) in H.
    destruct (3 <=? List.length names')%nat eqn:E3.
    + injection H as <-. now split.
    + apply Nat.leb_gt in E3. now apply (IH names').
Qed.

Lemma names_of_body_bounded (body : json) (names : list json) :
  names_of_body body = Ok names ->
  (List.length names <= 3)%nat /\ distinct_names names.
Proof.
  unfold names_of_body.
  destruct (dict_get body (lit "elements") (JList [])) as [elements|x]; simpl;
    [|discriminate].
  destruct (iterate elements) as [els|x]; simpl; [|discriminate].
  apply collect_names_bounded; [simpl; lia | constructor].
Qed.

Section Restaurants.

Variable py_str : json -> str.
Variable py_repr : str -> str.
Variable w : World.

(** An exception of the geocoder is raised before the [try] block is
    entered: it leaves [search_restaurants]. *)
Lemma search_restaurants_geocoder_raises (city : str) (x : exn) (t : trace) :
  geocode w city = Raise x ->
  search_restaurants py_str py_repr w city t = (Raise x, t ++ [Geocode city]).
Proof.
  intros H. unfold search_restaurants. run. now rewrite H.
Qed.

Lemma search_restaurants_not_geocoded (city : str) (t : trace) :
  geocode w city = Ok None ->
  search_restaurants py_str py_repr w city t
    = (Ok [], t ++ [Geocode city;
                    Log WARNING (lit "Could not geocode " ++ city
                                 ++ lit "; skipping restaurants.")]).
Proof.
  intros H. unfold search_restaurants. run. rewrite H. now rewrite <- app_assoc.
Qed.

Lemma search_restaurants_geocoded (city : str) (loc : Location) (t : trace) :
  geocode w city = Ok (Some loc) ->
  let params := [(lit "data", overpass_query py_str (latitude loc) (longitude loc))] in
  search_restaurants py_str py_repr w city t
    = match (r <- requests_get w overpass_url params ;;
             body <- response_json r ;;
             names_of_body body)%res with
      | Ok names => (Ok names, t ++ [Geocode city; RequestsGet overpass_url params])
      | Raise x =>
          (Ok [], t ++ [Geocode city; RequestsGet overpass_url params;
                        Log ERROR (lit "Restaurant search error: " ++ exn_str py_repr x)])
      end.
Proof.
  intros H params. unfold search_restaurants. run. rewrite H. fold params.
  destruct (requests_get w overpass_url params) as [r|x]; simpl;
    [|now rewrite <- !app_assoc].
  destruct (response_json r) as [body|x]; simpl; [|now rewrite <- !app_assoc].
  destruct (names_of_body body) as [names|x]; simpl; now rewrite <- !app_assoc.
Qed.

(** Once the geocoder has answered, [search_restaurants] returns at most
    three names, none equal to an earlier one; without coordinates, or when
    the request or the reading of its body fails, it returns the empty
    list. *)
Lemma search_restaurants_after_geocoding (city : str) (loc : option Location) (t : trace) :
  geocode w city = Ok loc ->
  (exists names t',
      search_restaurants py_str py_repr w city t = (Ok names, t')
      /\ (List.length names <= 3)%nat /\ distinct_names names)
  /\ (loc = None -> fst (search_restaurants py_str py_repr w city t) = Ok [])
  /\ (forall l x,
         loc = Some l ->
         (r <- requests_get w overpass_url
                 [(lit "data", overpass_query py_str (latitude l) (longitude l))] ;;
          body <- response_json r ;;
          names_of_body body)%res = Raise x ->
         fst (search_restaurants py_str py_repr w city t) = Ok []).
Proof.
  intros H. destruct loc as [l|].
  - rewrite (search_restaurants_geocoded city l t H). split; [|split].
    + destruct (r <- requests_get w overpass_url
                       [(lit "data", overpass_query py_str (latitude l) (longitude l))] ;;
                body <- response_json r ;;
                names_of_body body)%res as [names|x] eqn:E.
      * eexists _, _. split; [reflexivity|].
        destruct (requests_get w overpass_url _) as [r|?]; simpl in E; [|discriminate].
        destruct (response_json r) as [body|?]; simpl in E; [|discriminate].
        now apply (names_of_body_bounded body).
      * eexists _, _. split; [reflexivity|]. split; [simpl; lia|constructor].
    + discriminate.
    + intros l' x Hl E. injection Hl as <-. now rewrite E.
  - rewrite (search_restaurants_not_geocoded city t H). split; [|split].
    + eexists _, _. split; [reflexivity|]. split; [simpl; lia|constructor].
    + reflexivity.
    + discriminate.
Qed.

End Restaurants.

(** C6, at the failing input. With a geocoder that times out,
    [search_restaurants] does not return the empty list: the geocoder's
    exception is raised to the caller, the call standing before the [try]
    block. *)
Theorem search_restaurants_geocoder_error_escapes :
  search_restaurants Sample.py_str Sample.py_repr Sample.world_geocoder_down
    (lit "Denver") []
  = (Raise Sample.geocoder_timed_out, [Geocode (lit "Denver")]).
Proof. reflexivity. Qed.

(** In [main] the same exception ends the run after the flight and event
    searches, before any itinerary is asked for or printed. *)
Remark main_geocoder_error_escapes :
  main Sample.ascii_lower Sample.py_str Sample.py_repr Sample.isoformat
       Sample.airports Sample.world_geocoder_down []
  = (Raise Sample.geocoder_timed_out,
     [ Input (lit "Enter your travel request: ");
       RunAgent (lit "google-gla:gemini-2.0-flash") extraction_system_prompt
                (stdin_line Sample.world);
       NewClient (Some (lit "key")) (Some (lit "secret"));
       FlightOffersSearch (flight_params (lit "BOS") (lit "DEN")
                             (lit "2024-09-01") (lit "2024-09-08"));
       RequestsGet eventbrite_url
         (event_params (lit "Denver") (lit "2024-09-01") (lit "2024-09-08")
                       (lit "tok") [lit "skiing"]);
       Geocode (lit "Denver") ]).
Proof. reflexivity. Qed.

(** The sample world's six elements, two of them with the same name and one
    without a name, give three distinct names. *)
Remark search_restaurants_sample :
  fst (search_restaurants Sample.py_str Sample.py_repr Sample.world (lit "Denver") [])
  = Ok [JStr (lit "Linger"); JStr (lit "Root Down"); JStr (lit "Guard and Grace")].
Proof. reflexivity. Qed.

(** *** Synthesis: the prompt of [build_itinerary_text] *)

Lemma join_values_strings (sep : str) (xs : list str) :
  join_values sep (map JStr xs) = Ok (join sep xs).
Proof.
  induction xs as [|x xs IH]; simpl; [reflexivity|].
  destruct xs as [|y xs]; [reflexivity|].
  change (map JStr (y :: xs)) with (JStr y :: map JStr xs) in *.
  simpl in IH. simpl. now rewrite IH.
Qed.

Lemma render_facts_strings (facts : list str) :
  render_facts (map JStr facts) = Ok (facts_or_none facts).
Proof.
  destruct facts as [|x xs]; [reflexivity|].
  unfold render_facts, facts_or_none.
  change (map JStr (x :: xs)) with (JStr x :: map JStr xs).
  apply (join_values_strings (lit ", ") (x :: xs)).
Qed.

(** C8. For a normalized request and any three sequences of facts, the
    prompt [build_itinerary_text] sends to the generator carries, after
    "Flights: ", "Events: " and "Restaurants: ", the literal "none" where
    the sequence is empty and its entries joined by ", " otherwise. *)
Theorem build_itinerary_text_renders_none :
  forall (isoformat : date -> str) (w : World) (req : UserRequest) (s e : date)
         (flights events restaurants : list str) (t : trace),
    start_date req = Some s -> end_date req = Some e ->
    let rendered (facts : list str) :=
      match facts with
      | [] => lit "none"
      | _ => join (lit ", ") facts
      end in
    let prompt :=
      lit "Plan a friendly, detailed itinerary for a trip from " ++ origin req
      ++ lit " to " ++ destination req
      ++ lit ", departing " ++ isoformat s ++ lit " and returning " ++ isoformat e
      ++ lit ". Flights: " ++ rendered flights
      ++ lit ". Events: " ++ rendered events
      ++ lit ". Restaurants: " ++ rendered restaurants
      ++ lit ". Do not return JSON. Write clear day-by-day bullet points."
      ++ lit "Only give the itinerary for the trip, do not ask anything back."
      ++ lit "Do not use Decorators like *'s, instead make use of whitespaces to make it look cleaner" in
    itinerary_prompt isoformat req (map JStr flights) (map JStr events)
                     (map JStr restaurants) = Ok prompt
    /\ build_itinerary_text isoformat w req (map JStr flights) (map JStr events)
                            (map JStr restaurants) t
       = (agent_text w (agent_model w) planner_system_prompt prompt,
          t ++ [RunAgent (agent_model w) planner_system_prompt prompt]).
Proof.
  intros isoformat w req s e flights events restaurants t Hs He rendered prompt.
  assert (Hp : itinerary_prompt isoformat req (map JStr flights) (map JStr events)
                 (map JStr restaurants) = Ok prompt).
  { unfold itinerary_prompt. rewrite !render_facts_strings. simpl.
    rewrite Hs, He. reflexivity. }
  split; [exact Hp|].
  unfold build_itinerary_text. run. now rewrite Hp.
Qed.

Lemma build_itinerary_text_renders_none_witness :
  itinerary_prompt Sample.isoformat Sample.request
    (map JStr [lit "UA100 on 2024-09-01T08:00:00"; lit "DL200 on 2024-09-01T09:30:00"])
    (map JStr []) (map JStr [lit "Linger"])
  = Ok (lit "Plan a friendly, detailed itinerary for a trip from Boston to Denver, departing 2024-09-01 and returning 2024-09-08. Flights: UA100 on 2024-09-01T08:00:00, DL200 on 2024-09-01T09:30:00. Events: none. Restaurants: Linger. Do not return JSON. Write clear day-by-day bullet points.Only give the itinerary for the trip, do not ask anything back.Do not use Decorators like *'s, instead make use of whitespaces to make it look cleaner").
Proof.
  exact (proj1 (build_itinerary_text_renders_none Sample.isoformat Sample.world
                  Sample.request 739130 739137
                  [lit "UA100 on 2024-09-01T08:00:00"; lit "DL200 on 2024-09-01T09:30:00"]
                  [] [lit "Linger"] [] eq_refl eq_refl)).
Defined.

(** *** The budget *)

Section Budget.

Variable lower : str -> str.
Variable py_str : json -> str.
Variable py_repr : str -> str.
Variable isoformat : date -> str.
Variable airports : list (str * Airport).
Variable w : World.

(** Normalization carries the budget along and never reads it. *)
Lemma ensure_dates_set_budget (req : UserRequest) (b : option Q) (t : trace) :
  ensure_dates isoformat w (set_budget req b) t
  = (match fst (ensure_dates isoformat w req t) with
     | Ok req' => Ok (set_budget req' b)
     | Raise x => Raise x
     end,
     snd (ensure_dates isoformat w req t)).
Proof.
  unfold ensure_dates. destruct req as [o d [s|] [e|] b0 i]; run.
  - reflexivity.
  - destruct (date_add s 7); reflexivity.
  - destruct (date_add (now_date w) 14); reflexivity.
  - destruct (date_add (now_date w) 14) as [s|x]; simpl; [|reflexivity].
    destruct (date_add s 7); reflexivity.
Qed.

Lemma plan_trip_set_budget (req : UserRequest) (b : option Q) (t : trace) :
  plan_trip lower py_str py_repr isoformat airports w (set_budget req b) t
  = plan_trip lower py_str py_repr isoformat airports w req t.
Proof.
  unfold plan_trip.
  rewrite (bind_run (ensure_dates isoformat w (set_budget req b))).
  rewrite (bind_run (ensure_dates isoformat w req)).
  rewrite ensure_dates_set_budget.
  destruct (ensure_dates isoformat w req t) as [[req'|x] t']; reflexivity.
Qed.

End Budget.

(** Two requests that agree on every field but the budget. *)
Lemma differ_in_budget_only (req1 req2 : UserRequest) :
  origin req1 = origin req2 -> destination req1 = destination req2 ->
  start_date req1 = start_date req2 -> end_date req1 = end_date req2 ->
  interests req1 = interests req2 ->
  req2 = set_budget req1 (budget req2).
Proof.
  destruct req1, req2; simpl; intros; subst; reflexivity.
Qed.

(** C9. Two requests that differ in their budget only are treated alike by
    everything that follows: the same codes are resolved, the three searches
    are the same calls with the same results, the same prompt is built, and
    the whole run of the pipeline (every call made, every line logged or
    printed, in order) is the same. *)
Theorem budget_does_not_influence_the_pipeline :
  forall (lower : str -> str) (py_str : json -> str) (py_repr : str -> str)
         (isoformat : date -> str) (airports : list (str * Airport)) (w : World)
         (req1 req2 : UserRequest),
    origin req1 = origin req2 -> destination req1 = destination req2 ->
    start_date req1 = start_date req2 -> end_date req1 = end_date req2 ->
    interests req1 = interests req2 ->
    find_iata lower airports (origin req1) = find_iata lower airports (origin req2)
    /\ find_iata lower airports (destination req1)
       = find_iata lower airports (destination req2)
    /\ (forall amadeus orig_code dest_code t,
           search_flights py_str py_repr isoformat w amadeus orig_code dest_code
                          (start_date req1) (end_date req1) t
           = search_flights py_str py_repr isoformat w amadeus orig_code dest_code
                            (start_date req2) (end_date req2) t)
    /\ (forall t,
           search_events py_str isoformat w (destination req1)
                         (start_date req1) (end_date req1) (interests_or_empty req1) t
           = search_events py_str isoformat w (destination req2)
                           (start_date req2) (end_date req2) (interests_or_empty req2) t)
    /\ (forall t,
           search_restaurants py_str py_repr w (destination req1) t
           = search_restaurants py_str py_repr w (destination req2) t)
    /\ (forall flights events restaurants,
           itinerary_prompt isoformat req1 flights events restaurants
           = itinerary_prompt isoformat req2 flights events restaurants)
    /\ (forall flights events restaurants t,
           build_itinerary_text isoformat w req1 flights events restaurants t
           = build_itinerary_text isoformat w req2 flights events restaurants t)
    /\ (forall t,
           ensure_dates isoformat w req2 t
           = (match fst (ensure_dates isoformat w req1 t) with
              | Ok req' => Ok (set_budget req' (budget req2))
              | Raise x => Raise x
              end,
              snd (ensure_dates isoformat w req1 t)))
    /\ (forall t,
           plan_trip lower py_str py_repr isoformat airports w req1 t
           = plan_trip lower py_str py_repr isoformat airports w req2 t).
Proof.
  intros lower py_str py_repr isoformat airports w req1 req2 Ho Hd Hs He Hi.
  rewrite (differ_in_budget_only req1 req2 Ho Hd Hs He Hi).
  repeat split; intros; try reflexivity.
  - apply ensure_dates_set_budget.
  - symmetry. apply plan_trip_set_budget.
Qed.

Lemma budget_does_not_influence_the_pipeline_witness :
  plan_trip Sample.ascii_lower Sample.py_str Sample.py_repr Sample.isoformat
            Sample.airports Sample.world Sample.request []
  = plan_trip Sample.ascii_lower Sample.py_str Sample.py_repr Sample.isoformat
              Sample.airports Sample.world (set_budget Sample.request (Some (250 # 1))) [].
Proof.
  apply (budget_does_not_influence_the_pipeline Sample.ascii_lower Sample.py_str
           Sample.py_repr Sample.isoformat Sample.airports Sample.world
           Sample.request (set_budget Sample.request (Some (250 # 1)))
           eq_refl eq_refl eq_refl eq_refl eq_refl).
Defined.

(** ** Further properties of the code *)

(** *** [ensure_dates] *)

(** X1. Normalizing a request that [ensure_dates] has returned changes
    nothing and logs nothing, whatever the clock then shows. *)
Theorem ensure_dates_idempotent :
  forall (isoformat : date -> str) (w : World) (req req' : UserRequest) (t t' : trace),
    ensure_dates isoformat w req t = (Ok req', t') ->
    forall (isoformat2 : date -> str) (w2 : World) (t2 : trace),
      ensure_dates isoformat2 w2 req' t2 = (Ok req', t2).
Proof.
  intros isoformat w req req' t t' H isoformat2 w2 t2.
  apply ensure_dates_returns in H. subst req'. reflexivity.
Qed.

Lemma ensure_dates_idempotent_witness :
  ensure_dates Sample.isoformat Sample.world Sample.undated_request []
    = (Ok (set_end_date (set_start_date Sample.undated_request 739937) 739944),
       [ Log INFO (lit "No start_date: defaulting to 2026-11-17");
         Log INFO (lit "No end_date: defaulting to 2026-11-24") ])
  /\ forall t2,
      ensure_dates Sample.isoformat Sample.world_geocoder_down
        (set_end_date (set_start_date Sample.undated_request 739937) 739944) t2
      = (Ok (set_end_date (set_start_date Sample.undated_request 739937) 739944), t2).
Proof.
  split; [reflexivity|].
  exact (ensure_dates_idempotent Sample.isoformat Sample.world Sample.undated_request
           (set_end_date (set_start_date Sample.undated_request 739937) 739944)
           [] _ eq_refl Sample.isoformat Sample.world_geocoder_down).
Defined.

(** X2. When [ensure_dates] returns it has logged one INFO notice per date
    it defaulted, the start date's first, each giving the date chosen, and
    nothing else. *)
Theorem ensure_dates_notices :
  forall (isoformat : date -> str) (w : World) (req req' : UserRequest) (t t' : trace),
    ensure_dates isoformat w req t = (Ok req', t') ->
    t' = t
         ++ match start_date req with
            | None => [Log INFO (lit "No start_date: defaulting to "
                                 ++ isoformat (now_date w + 14))]
            | Some _ => []
            end
         ++ match end_date req with
            | None => [Log INFO (lit "No end_date: defaulting to "
                                 ++ isoformat (normal_start w req + 7))]
            | Some _ => []
            end.
Proof.
  intros isoformat w req req' t t'. unfold ensure_dates, normal_start.
  destruct req as [o d [s|] [e|] b i]; run.
  - intros H. injection H as _ <-. now rewrite app_nil_r.
  - destruct (date_add s 7) as [r|x] eqn:E; [|discriminate].
    apply date_add_Ok in E as [-> _]. intros H. now injection H as _ <-.
  - destruct (date_add (now_date w) 14) as [r|x] eqn:E; [|discriminate].
    apply date_add_Ok in E as [-> _]. simpl. intros H. now injection H as _ <-.
  - destruct (date_add (now_date w) 14) as [r|x] eqn:E; [|discriminate].
    apply date_add_Ok in E as [-> _]. simpl.
    destruct (date_add (now_date w + 14) 7) as [r|x] eqn:E; [|discriminate].
    apply date_add_Ok in E as [-> _]. intros H. injection H as _ <-.
    now rewrite <- app_assoc.
Qed.

Lemma ensure_dates_notices_witness :
  ensure_dates Sample.isoformat Sample.world Sample.open_ended_request []
    = (Ok (set_end_date Sample.open_ended_request 739137),
       [Log INFO (lit "No end_date: defaulting to 2024-09-08")])
  /\ [Log INFO (lit "No end_date: defaulting to 2024-09-08")]
     = [] ++ [] ++ [Log INFO (lit "No end_date: defaulting to "
                              ++ Sample.isoformat (739130 + 7))].
Proof.
  split; [reflexivity|].
  exact (ensure_dates_notices Sample.isoformat Sample.world Sample.open_ended_request
           (set_end_date Sample.open_ended_request 739137) []
           [Log INFO (lit "No end_date: defaulting to 2024-09-08")] eq_refl).
Defined.

(** *** [find_iata] *)

Lemma forallb_rev {A} (f : A -> bool) (l : list A) :
  forallb f (rev l) = forallb f l.
Proof.
  induction l as [|x l IH]; simpl; [reflexivity|].
  rewrite forallb_app, IH. simpl. rewrite andb_true_r. apply andb_comm.
Qed.

Lemma lstrip_app_space (pre s : str) :
  forallb is_space pre = true -> lstrip (pre ++ s) = lstrip s.
Proof.
  induction pre as [|c pre IH]; simpl; [reflexivity|].
  intros H. apply andb_true_iff in H as [Hc Hpre]. rewrite Hc. now apply IH.
Qed.

Lemma rstrip_app_space (s post : str) :
  forallb is_space post = true -> rstrip (s ++ post) = rstrip s.
Proof.
  intros H. unfold rstrip. rewrite rev_app_distr.
  rewrite lstrip_app_space; [reflexivity|]. now rewrite forallb_rev.
Qed.

(** Whitespace around a text does not reach its stripped form. *)
Lemma strip_padding (pre s post : str) :
  forallb is_space pre = true -> forallb is_space post = true ->
  strip (pre ++ s ++ post) = strip s.
Proof.
  intros Hpre Hpost. unfold strip. rewrite (lstrip_app_space pre _ Hpre).
  induction s as [|c s IH]; simpl.
  - now rewrite (lstrip_all_space post Hpost).
  - destruct (is_space c); [exact IH|].
    now apply (rstrip_app_space (c :: s) post).
Qed.

(** X3. Whitespace before and after the place name makes no difference to
    [find_iata]: the padded name resolves to a code exactly when the bare
    name does, and to the same one. *)
Theorem find_iata_ignores_padding :
  forall (lower : str -> str) (airports : list (str * Airport)) (pre s post : str),
    forallb is_space pre = true -> forallb is_space post = true ->
    forall code,
      find_iata lower airports (pre ++ s ++ post) = Ok code
      <-> find_iata lower airports s = Ok code.
Proof.
  intros lower airports pre s post Hpre Hpost code.
  rewrite !find_iata_Ok. now rewrite (strip_padding pre s post Hpre Hpost).
Qed.

Lemma find_iata_ignores_padding_witness :
  find_iata Sample.ascii_lower Sample.airports (lit "  " ++ lit "Denver" ++ [9%N; 10%N])
    = Ok (lit "DEN")
  <-> find_iata Sample.ascii_lower Sample.airports (lit "Denver") = Ok (lit "DEN").
Proof.
  exact (find_iata_ignores_padding Sample.ascii_lower Sample.airports
           (lit "  ") (lit "Denver") [9%N; 10%N] eq_refl eq_refl (lit "DEN")).
Defined.

Lemma scan_airports_app (lower : str -> str) (a b : list (str * Airport)) (key : str) :
  scan_airports lower (a ++ b) key
  = match scan_airports lower a key with
    | Some code => Some code
    | None => scan_airports lower b key
    end.
Proof.
  induction a as [|[c i] a IH]; simpl; [reflexivity|].
  destruct (str_eqb (lower (get_city i)) key); [reflexivity|exact IH].
Qed.

(** X4. In a table made of two parts, [find_iata] answers from the first
    part when it holds a match and from the second part otherwise: records
    added after a match never change a resolution, and the not-found error
    is that of the whole table. *)
Theorem find_iata_concatenated_table :
  forall (lower : str -> str) (a b : list (str * Airport)) (city_name : str),
    find_iata lower (a ++ b) city_name
    = match find_iata lower a city_name with
      | Ok code => Ok code
      | Raise _ => find_iata lower b city_name
      end.
Proof.
  intros lower a b city_name. unfold find_iata. rewrite scan_airports_app.
  destruct (scan_airports lower a (lower (strip city_name))); reflexivity.
Qed.

(** *** [search_flights] *)

Lemma getitem_Raise (obj : json) (key : str) (x : exn) :
  getitem obj key = Raise x -> is_ResponseError x = false.
Proof.
  destruct obj; simpl; try (intros H; injection H as <-; reflexivity).
  destruct (dict_lookup key items); [discriminate|].
  intros H. now injection H as <-.
Qed.

Lemma getitem0_Raise (obj : json) (x : exn) :
  getitem0 obj = Raise x -> is_ResponseError x = false.
Proof.
  destruct obj as [| | | |[|c s]|[|y xs]|kvs]; simpl;
    try discriminate; intros H; now injection H as <-.
Qed.

Lemma iterate_Raise (obj : json) (x : exn) :
  iterate obj = Raise x -> is_ResponseError x = false.
Proof.
  destruct obj; simpl; try discriminate; intros H; now injection H as <-.
Qed.

(** Reading an offer raises the errors of subscripts only. *)
Lemma flight_descriptor_Raise (py_str : json -> str) (offer : json) (x : exn) :
  flight_descriptor py_str offer = Raise x -> is_ResponseError x = false.
Proof.
  unfold flight_descriptor.
  repeat match goal with
         | |- rbind (getitem ?o ?k) _ = _ -> _ =>
             let E := fresh "E" in
             destruct (getitem o k) eqn:E; simpl;
             [|intros H; injection H as <-; exact (getitem_Raise _ _ _ E)]
         | |- rbind (getitem0 ?o) _ = _ -> _ =>
             let E := fresh "E" in
             destruct (getitem0 o) eqn:E; simpl;
             [|intros H; injection H as <-; exact (getitem0_Raise _ _ E)]
         end.
  discriminate.
Qed.

Lemma map_result_Raise {A B} (f : A -> result B) (xs : list A) (x : exn) :
  map_result f xs = Raise x -> exists a, In a xs /\ f a = Raise x.
Proof.
  induction xs as [|a xs IH]; simpl; [discriminate|].
  destruct (f a) as [y|e] eqn:E; simpl.
  - destruct (map_result f xs) as [ys|e]; simpl; [discriminate|].
    intros H. injection H as ->. destruct (IH eq_refl) as (a' & Hin & Ha).
    exists a'. split; [now right|exact Ha].
  - intros H. injection H as ->. exists a. split; [now left|exact E].
Qed.

Section FlightsOutcome.

Variable py_str : json -> str.
Variable py_repr : str -> str.
Variable isoformat : date -> str.
Variable w : World.

(** An offer that cannot be read stops the loop with its error. *)
Lemma for_each_offer_Raise (body : json -> Local (list str) unit)
    (offers : list json) (x : exn) (flights : list str) (t : trace) :
  (forall offer fl,
      body offer (fl, t)
      = match flight_descriptor py_str offer with
        | Ok d => (Ok tt, (fl ++ [d], t))
        | Raise x => (Raise x, (fl, t))
        end) ->
  map_result (flight_descriptor py_str) offers = Raise x ->
  exists held, for_each offers body (flights, t) = (Raise x, (held, t)).
Proof.
  intros Hbody. revert flights.
  induction offers as [|offer offers IH]; simpl; intros flights H; [discriminate|].
  unfold lbind. rewrite Hbody.
  destruct (flight_descriptor py_str offer) as [d|e]; simpl in H.
  - destruct (map_result (flight_descriptor py_str) offers) as [ds|e]; simpl in H;
      [discriminate|].
    injection H as ->. apply (IH (flights ++ [d]) eq_refl).
  - injection H as ->. now exists flights.
Qed.

(** What [search_flights] does, by the answer of the provider: its loop
    over the offers read as one pass over them. *)
Lemma search_flights_outcome (amadeus : Client) (origin_code dest_code : str)
    (s e : date) (t : trace) :
  let params := flight_params origin_code dest_code (isoformat s) (isoformat e) in
  search_flights py_str py_repr isoformat w amadeus origin_code dest_code (Some s) (Some e) t
  = match (data <- flight_offers_search_get w amadeus params ;;
           offers <- iterate (py_or data (JList [])) ;;
           map_result (flight_descriptor py_str) offers)%res with
    | Ok [] => (Ok [], t ++ [FlightOffersSearch params;
                             Log WARNING (lit "No flights found.")])
    | Ok ds => (Ok ds, t ++ [FlightOffersSearch params])
    | Raise x =>
        if is_ResponseError x
        then (Ok [], t ++ [FlightOffersSearch params;
                           Log ERROR (lit "Flight search error: " ++ exn_str py_repr x)])
        else (Raise x, t ++ [FlightOffersSearch params])
    end.
Proof.
  intros params.
  destruct (flight_offers_search_get w amadeus params) as [data|x] eqn:Hget; simpl.
  - destruct (iterate (py_or data (JList []))) as [offers|x] eqn:Hit; simpl.
    + destruct (map_result (flight_descriptor py_str) offers) as [ds|x] eqn:Hds.
      * rewrite (search_flights_offers py_str py_repr isoformat w amadeus origin_code
                   dest_code s e data offers ds t Hget Hit Hds).
        destruct ds; reflexivity.
      * assert (Hx : is_ResponseError x = false).
        { destruct (map_result_Raise _ _ _ Hds) as (a & _ & Ha).
          exact (flight_descriptor_Raise py_str a x Ha). }
        rewrite Hx. unfold search_flights. run. fold params.
        rewrite Hget. simpl. rewrite Hit. simpl.
        match goal with
        | |- context [for_each offers ?body _] =>
            destruct (for_each_offer_Raise body offers x []
                        (t ++ [FlightOffersSearch params])) as (held & ->);
            [ intros offer fl; destruct (flight_descriptor py_str offer); reflexivity
            | exact Hds | ]
        end.
        simpl. now rewrite Hx.
    + rewrite (iterate_Raise _ _ Hit).
      unfold search_flights. run. fold params.
      rewrite Hget. simpl. rewrite Hit. simpl. now rewrite (iterate_Raise _ _ Hit).
  - unfold search_flights. run. fold params. rewrite Hget. simpl.
    destruct (is_ResponseError x); simpl; [now rewrite <- app_assoc|reflexivity].
Qed.

End FlightsOutcome.

(** X5. [search_flights] contains nothing but [ResponseError]: any other
    exception of the provider call, a payload that cannot be iterated and an
    offer that lacks a field read all raise out of it, the descriptors
    gathered so far being lost. *)
Theorem search_flights_lets_other_errors_through :
  forall (py_str : json -> str) (py_repr : str -> str) (isoformat : date -> str)
         (w : World) (amadeus : Client) (origin_code dest_code : str)
         (s e : date) (t : trace),
    let params := flight_params origin_code dest_code (isoformat s) (isoformat e) in
    let run_search :=
      search_flights py_str py_repr isoformat w amadeus origin_code dest_code
                     (Some s) (Some e) t in
    (forall x,
        flight_offers_search_get w amadeus params = Raise x ->
        is_ResponseError x = false ->
        run_search = (Raise x, t ++ [FlightOffersSearch params]))
    /\ (forall data x,
        flight_offers_search_get w amadeus params = Ok data ->
        iterate (py_or data (JList [])) = Raise x ->
        run_search = (Raise x, t ++ [FlightOffersSearch params]))
    /\ (forall data offers x,
        flight_offers_search_get w amadeus params = Ok data ->
        iterate (py_or data (JList [])) = Ok offers ->
        map_result (flight_descriptor py_str) offers = Raise x ->
        run_search = (Raise x, t ++ [FlightOffersSearch params])
        /\ exists offer, In offer offers /\ flight_descriptor py_str offer = Raise x).
Proof.
  intros py_str py_repr isoformat w amadeus origin_code dest_code s e t params run_search.
  unfold run_search. rewrite search_flights_outcome. fold params.
  split; [|split].
  - intros x -> Hx. simpl. now rewrite Hx.
  - intros data x -> Hit. simpl. rewrite Hit. simpl. now rewrite (iterate_Raise _ _ Hit).
  - intros data offers x -> Hit Hds. simpl. rewrite Hit. simpl. rewrite Hds.
    destruct (map_result_Raise _ _ _ Hds) as (offer & Hin & Ho).
    rewrite (flight_descriptor_Raise py_str offer x Ho). split; [reflexivity|].
    now exists offer.
Qed.

Lemma search_flights_lets_other_errors_through_witness :
  search_flights Sample.py_str Sample.py_repr Sample.isoformat
    (Sample.with_flight_answer Sample.world
       (Ok (JList [Sample.segment "UA" "100" "2024-09-01T08:00:00"; JDict []])))
    Sample.client (lit "BOS") (lit "DEN") (Some 739130) (Some 739137) []
  = (Raise (Exn KeyError (lit "itineraries")),
     [] ++ [FlightOffersSearch (flight_params (lit "BOS") (lit "DEN")
                                  (Sample.isoformat 739130) (Sample.isoformat 739137))])
  /\ exists offer,
      In offer [Sample.segment "UA" "100" "2024-09-01T08:00:00"; JDict []]
      /\ flight_descriptor Sample.py_str offer = Raise (Exn KeyError (lit "itineraries")).
Proof.
  apply (search_flights_lets_other_errors_through Sample.py_str Sample.py_repr
           Sample.isoformat
           (Sample.with_flight_answer Sample.world
              (Ok (JList [Sample.segment "UA" "100" "2024-09-01T08:00:00"; JDict []])))
           Sample.client (lit "BOS") (lit "DEN") 739130 739137 [])
    with (data := JList [Sample.segment "UA" "100" "2024-09-01T08:00:00"; JDict []]);
    reflexivity.
Defined.

(** X6. Whatever the provider answers, [search_flights] queries it exactly
    once, with the two codes, the two dates in ISO form, one adult and a
    maximum of three offers, and besides that logs at most one notice. *)
Theorem search_flights_queries_once :
  forall (py_str : json -> str) (py_repr : str -> str) (isoformat : date -> str)
         (w : World) (amadeus : Client) (origin_code dest_code : str)
         (s e : date) (t : trace),
  exists r logs,
    search_flights py_str py_repr isoformat w amadeus origin_code dest_code
                   (Some s) (Some e) t
    = (r, t ++ FlightOffersSearch
                 [ (lit "originLocationCode", JStr origin_code);
                   (lit "destinationLocationCode", JStr dest_code);
                   (lit "departureDate", JStr (isoformat s));
                   (lit "returnDate", JStr (isoformat e));
                   (lit "adults", JInt 1);
                   (lit "max", JInt 3) ] :: logs)
    /\ (logs = [] \/ exists l msg, logs = [Log l msg]).
Proof.
  intros py_str py_repr isoformat w amadeus origin_code dest_code s e t.
  rewrite search_flights_outcome.
  change [ (lit "originLocationCode", JStr origin_code);
           (lit "destinationLocationCode", JStr dest_code);
           (lit "departureDate", JStr (isoformat s));
           (lit "returnDate", JStr (isoformat e));
           (lit "adults", JInt 1);
           (lit "max", JInt 3) ]
    with (flight_params origin_code dest_code (isoformat s) (isoformat e)).
  destruct (data <- flight_offers_search_get w amadeus _ ;;
            offers <- iterate (py_or data (JList [])) ;;
            map_result (flight_descriptor py_str) offers)%res as [[|d ds]|x].
  - eexists _, [_]. split; [reflexivity|]. right. now eexists _, _.
  - eexists _, []. split; [reflexivity|]. now left.
  - destruct (is_ResponseError x).
    + eexists _, [_]. split; [reflexivity|]. right. now eexists _, _.
    + eexists _, []. split; [reflexivity|]. now left.
Qed.

(** *** [search_events] *)

Lemma map_result_In_Raise {A B} (f : A -> result B) (xs : list A) (a : A) (x : exn) :
  In a xs -> f a = Raise x -> exists y, map_result f xs = Raise y.
Proof.
  induction xs as [|b xs IH]; simpl; [intros []|].
  intros [->|Hin] Ha.
  - rewrite Ha. now exists x.
  - destruct (f b) as [y|e]; simpl; [|now exists e].
    destruct (IH Hin Ha) as [y' ->]. now exists y'.
Qed.

Lemma firstn3_app {A} (first rest : list A) :
  List.length first = 3%nat -> firstn 3 (first ++ rest) = first.
Proof.
  destruct first as [|a [|b [|c [|d first]]]]; simpl; try discriminate. reflexivity.
Qed.

(** X7. [search_events] reads the first three events of the answer and no
    other: with three readable events at the head of the list, the result is
    their descriptors, in order, whatever follows them. *)
Theorem search_events_reads_first_three :
  forall (py_str : json -> str) (isoformat : date -> str) (w : World)
         (city : str) (s e : date) (interests : list str) (t : trace)
         (r : Response) (body : list (str * json)) (first rest : list json)
         (ds : list str),
    let token := getenv w (lit "EVENTBRITE_TOKEN") in
    let params :=
      event_params city (isoformat s) (isoformat e)
                   match token with Some tk => tk | None => [] end interests in
    no_token token = false ->
    requests_get w eventbrite_url params = Ok r ->
    raise_for_status r = Ok tt ->
    response_json r = Ok (JDict body) ->
    dict_lookup (lit "events") body = Some (JList (first ++ rest)) ->
    List.length first = 3%nat ->
    map_result (event_descriptor py_str) first = Ok ds ->
    search_events py_str isoformat w city (Some s) (Some e) interests t
    = (Ok ds, t ++ [RequestsGet eventbrite_url params]).
Proof.
  intros py_str isoformat w city s e interests t r body first rest ds token params
         Htok Hget Hst Hjs Hev Hlen Hds.
  rewrite (search_events_with_token py_str isoformat w city s e interests t Htok).
  fold token. fold params. rewrite Hget. simpl. rewrite Hst, Hjs. simpl.
  unfold events_of_body, dict_get. rewrite Hev. unfold rbind at 1. unfold slice3.
  unfold rbind at 1. unfold iterate. unfold rbind.
  rewrite (firstn3_app first rest Hlen). now rewrite Hds.
Qed.

Lemma search_events_reads_first_three_witness :
  search_events Sample.py_str Sample.isoformat Sample.world
    (lit "Denver") (Some 739130) (Some 739137) [lit "skiing"] []
  = (Ok [ lit "Ski Expo at 2024-09-02T10:00:00";
          lit "Film Night at 2024-09-03T19:00:00";
          lit "Jazz Brunch at 2024-09-04T11:00:00" ],
     [] ++ [RequestsGet eventbrite_url
              (event_params (lit "Denver") (Sample.isoformat 739130)
                 (Sample.isoformat 739137) (lit "tok") [lit "skiing"])]).
Proof.
  apply (search_events_reads_first_three Sample.py_str Sample.isoformat Sample.world
           (lit "Denver") 739130 739137 [lit "skiing"] []
           {| raise_for_status := Ok tt;
              response_json := Ok (JDict [ (lit "events",
                JList [ Sample.event_item "Ski Expo" "2024-09-02T10:00:00";
                        Sample.event_item "Film Night" "2024-09-03T19:00:00";
                        Sample.event_item "Jazz Brunch" "2024-09-04T11:00:00";
                        Sample.event_item "Trail Run" "2024-09-05T07:00:00" ]) ]) |}
           [ (lit "events",
              JList [ Sample.event_item "Ski Expo" "2024-09-02T10:00:00";
                      Sample.event_item "Film Night" "2024-09-03T19:00:00";
                      Sample.event_item "Jazz Brunch" "2024-09-04T11:00:00";
                      Sample.event_item "Trail Run" "2024-09-05T07:00:00" ]) ]
           [ Sample.event_item "Ski Expo" "2024-09-02T10:00:00";
             Sample.event_item "Film Night" "2024-09-03T19:00:00";
             Sample.event_item "Jazz Brunch" "2024-09-04T11:00:00" ]
           [ Sample.event_item "Trail Run" "2024-09-05T07:00:00" ]);
    reflexivity.
Defined.

(** X8. One unreadable event among the first three voids the whole answer:
    [search_events] logs the error notice and returns the empty list, the
    readable events included. *)
Theorem search_events_all_or_nothing :
  forall (py_str : json -> str) (isoformat : date -> str) (w : World)
         (city : str) (s e : date) (interests : list str) (t : trace)
         (r : Response) (body : list (str * json)) (evs : list json)
         (ev : json) (x : exn),
    let token := getenv w (lit "EVENTBRITE_TOKEN") in
    let params :=
      event_params city (isoformat s) (isoformat e)
                   match token with Some tk => tk | None => [] end interests in
    no_token token = false ->
    requests_get w eventbrite_url params = Ok r ->
    raise_for_status r = Ok tt ->
    response_json r = Ok (JDict body) ->
    dict_lookup (lit "events") body = Some (JList evs) ->
    In ev (firstn 3 evs) ->
    event_descriptor py_str ev = Raise x ->
    search_events py_str isoformat w city (Some s) (Some e) interests t
    = (Ok [], t ++ [RequestsGet eventbrite_url params;
                    Log ERROR (lit "Event search error: No Event Found")]).
Proof.
  intros py_str isoformat w city s e interests t r body evs ev x token params
         Htok Hget Hst Hjs Hev Hin Hx.
  rewrite (search_events_with_token py_str isoformat w city s e interests t Htok).
  fold token. fold params. rewrite Hget. simpl. rewrite Hst, Hjs. simpl.
  unfold events_of_body, dict_get. rewrite Hev. unfold rbind at 1. unfold slice3.
  unfold rbind at 1. unfold iterate. unfold rbind.
  destruct (map_result_In_Raise (event_descriptor py_str) (firstn 3 evs) ev x Hin Hx)
    as [y ->].
  reflexivity.
Qed.

Lemma search_events_all_or_nothing_witness :
  search_events Sample.py_str Sample.isoformat
    (Sample.with_http_answer Sample.world
       (Ok {| raise_for_status := Ok tt;
              response_json := Ok (JDict [ (lit "events",
                JList [ Sample.event_item "Ski Expo" "2024-09-02T10:00:00";
                        JDict [ (lit "name", JNull) ] ]) ]) |}))
    (lit "Denver") (Some 739130) (Some 739137) [lit "skiing"] []
  = (Ok [], [] ++ [RequestsGet eventbrite_url
                     (event_params (lit "Denver") (Sample.isoformat 739130)
                        (Sample.isoformat 739137) (lit "tok") [lit "skiing"]);
                   Log ERROR (lit "Event search error: No Event Found")]).
Proof.
  apply (search_events_all_or_nothing Sample.py_str Sample.isoformat
           (Sample.with_http_answer Sample.world
              (Ok {| raise_for_status := Ok tt;
                     response_json := Ok (JDict [ (lit "events",
                       JList [ Sample.event_item "Ski Expo" "2024-09-02T10:00:00";
                               JDict [ (lit "name", JNull) ] ]) ]) |}))
           (lit "Denver") 739130 739137 [lit "skiing"] []
           {| raise_for_status := Ok tt;
              response_json := Ok (JDict [ (lit "events",
                JList [ Sample.event_item "Ski Expo" "2024-09-02T10:00:00";
                        JDict [ (lit "name", JNull) ] ]) ]) |}
           [ (lit "events",
              JList [ Sample.event_item "Ski Expo" "2024-09-02T10:00:00";
                      JDict [ (lit "name", JNull) ] ]) ]
           [ Sample.event_item "Ski Expo" "2024-09-02T10:00:00";
             JDict [ (lit "name", JNull) ] ]
           (JDict [ (lit "name", JNull) ]) type_error);
    try reflexivity.
  simpl. tauto.
Defined.

(** X9. An answer that is a JSON object without an "events" entry counts as
    no events: [search_events] returns the empty list and logs no error. *)
Theorem search_events_without_events_entry :
  forall (py_str : json -> str) (isoformat : date -> str) (w : World)
         (city : str) (s e : date) (interests : list str) (t : trace)
         (r : Response) (body : list (str * json)),
    let token := getenv w (lit "EVENTBRITE_TOKEN") in
    let params :=
      event_params city (isoformat s) (isoformat e)
                   match token with Some tk => tk | None => [] end interests in
    no_token token = false ->
    requests_get w eventbrite_url params = Ok r ->
    raise_for_status r = Ok tt ->
    response_json r = Ok (JDict body) ->
    dict_lookup (lit "events") body = None ->
    search_events py_str isoformat w city (Some s) (Some e) interests t
    = (Ok [], t ++ [RequestsGet eventbrite_url params]).
Proof.
  intros py_str isoformat w city s e interests t r body token params
         Htok Hget Hst Hjs Hev.
  rewrite (search_events_with_token py_str isoformat w city s e interests t Htok).
  fold token. fold params. rewrite Hget. simpl. rewrite Hst, Hjs. simpl.
  unfold events_of_body, dict_get. now rewrite Hev.
Qed.

Lemma search_events_without_events_entry_witness :
  search_events Sample.py_str Sample.isoformat
    (Sample.with_http_answer Sample.world
       (Ok {| raise_for_status := Ok tt;
              response_json := Ok (JDict [ (lit "pagination", JDict []) ]) |}))
    (lit "Denver") (Some 739130) (Some 739137) [lit "skiing"] []
  = (Ok [], [] ++ [RequestsGet eventbrite_url
                     (event_params (lit "Denver") (Sample.isoformat 739130)
                        (Sample.isoformat 739137) (lit "tok") [lit "skiing"])]).
Proof.
  apply (search_events_without_events_entry Sample.py_str Sample.isoformat
           (Sample.with_http_answer Sample.world
              (Ok {| raise_for_status := Ok tt;
                     response_json := Ok (JDict [ (lit "pagination", JDict []) ]) |}))
           (lit "Denver") 739130 739137 [lit "skiing"] []
           {| raise_for_status := Ok tt;
              response_json := Ok (JDict [ (lit "pagination", JDict []) ]) |}
           [ (lit "pagination", JDict []) ]);
    reflexivity.
Defined.

(** *** [search_restaurants] *)

(** X10. Once the geocoder has answered, [search_restaurants] always
    returns: at most three names, none equal to an earlier one (for names
    that are strings: no duplicates); the empty list when no coordinates
    were found, and when the request to Overpass or the reading of its
    answer fails. *)
Theorem search_restaurants_contained_once_geocoded :
  forall (py_str : json -> str) (py_repr : str -> str) (w : World)
         (city : str) (loc : option Location) (t : trace),
    geocode w city = Ok loc ->
    (exists names t',
        search_restaurants py_str py_repr w city t = (Ok names, t')
        /\ (List.length names <= 3)%nat
        /\ distinct_names names
        /\ (forall strings, names = map JStr strings -> NoDup strings))
    /\ (loc = None ->
        search_restaurants py_str py_repr w city t
        = (Ok [], t ++ [Geocode city;
                        Log WARNING (lit "Could not geocode " ++ city
                                     ++ lit "; skipping restaurants.")]))
    /\ (forall l x,
           loc = Some l ->
           (r <- requests_get w overpass_url
                   [(lit "data", overpass_query py_str (latitude l) (longitude l))] ;;
            body <- response_json r ;;
            names_of_body body)%res = Raise x ->
           search_restaurants py_str py_repr w city t
           = (Ok [], t ++ [Geocode city;
                           RequestsGet overpass_url
                             [(lit "data",
                               overpass_query py_str (latitude l) (longitude l))];
                           Log ERROR (lit "Restaurant search error: "
                                      ++ exn_str py_repr x)])).
Proof.
  intros py_str py_repr w city loc t Hgeo. split; [|split].
  - destruct (search_restaurants_after_geocoding py_str py_repr w city loc t Hgeo)
      as [(names & t' & Hrun & Hlen & Hd) _].
    exists names, t'. repeat split; auto.
    intros strings ->. now apply distinct_names_strings.
  - intros ->. now apply search_restaurants_not_geocoded.
  - intros l x -> Hx.
    rewrite (search_restaurants_geocoded py_str py_repr w city l t Hgeo).
    now rewrite Hx.
Qed.

Lemma search_restaurants_contained_once_geocoded_witness :
  exists names t',
    search_restaurants Sample.py_str Sample.py_repr Sample.world (lit "Denver") []
    = (Ok names, t')
    /\ (List.length names <= 3)%nat
    /\ distinct_names names
    /\ (forall strings, names = map JStr strings -> NoDup strings).
Proof.
  exact (proj1 (search_restaurants_contained_once_geocoded Sample.py_str Sample.py_repr
                  Sample.world (lit "Denver")
                  (Some {| latitude := 39 # 1; longitude := - 105 # 1 |}) []
                  eq_refl)).
Defined.

Lemma add_names_extends (candidates names : list json) :
  exists more, add_names names candidates = names ++ more.
Proof.
  revert names. induction candidates as [|name rest IH]; simpl; intros names.
  - exists []. now rewrite app_nil_r.
  - destruct (truthy name && negb (py_in name names)).
    + destruct (IH (names ++ [name])) as [more ->].
      exists (name :: more). now rewrite <- app_assoc.
    + apply IH.
Qed.

Lemma collect_names_add_names (elements candidates names : list json) :
  map_result element_name elements = Ok candidates ->
  (List.length names < 3)%nat ->
  collect_names elements names = Ok (firstn 3 (add_names names candidates)).
Proof.
  revert candidates names.
  induction elements as [|el elements IH]; intros candidates names H Hlen.
  - simpl in H. injection H as <-. cbn [collect_names add_names].
    rewrite firstn_all2; [reflexivity|lia].
  - cbn [map_result] in H. unfold element_name in H at 1.
    cbn [collect_names].
    destruct (dict_get el (lit "tags") (JDict [])) as [tags|x];
      cbn [rbind] in H |- *; [|discriminate].
    destruct (dict_get tags (lit "name") JNull) as [name|x];
      cbn [rbind] in H |- *; [|discriminate].
    destruct (map_result element_name elements) as [rest|x] eqn:Hrest;
      cbn [rbind] in H; [|discriminate].
    injection H as <-. cbn [add_names]. cbv zeta.
    set (names' := if truthy name && negb (py_in name names)
                   then names ++ [name] else names).
    assert (Hlen' : (List.length names' <= 3)%nat).
    { unfold names'. destruct (truthy name && negb (py_in name names)).
      - rewrite length_app. simpl. lia.
      - lia. }
    destruct (3 <=? List.length names')%nat eqn:E3.
    + apply Nat.leb_le in E3.
      destruct (add_names_extends rest names') as [more ->].
      rewrite firstn3_app; [reflexivity|lia].
    + apply Nat.leb_gt in E3. now apply (IH rest names' eq_refl).
Qed.

(** X11. When every element of the answer is an object whose tags, if any,
    are an object, [search_restaurants] returns the first three of the names
    that are truthy and differ from those before them, in the order of the
    answer: stopping at the third name is the same as collecting them all
    and keeping three. Elements without tags or without a name add nothing. *)
Theorem search_restaurants_first_three_distinct :
  forall (py_str : json -> str) (py_repr : str -> str) (w : World)
         (city : str) (loc : Location) (t : trace)
         (r : Response) (body : list (str * json)) (elements candidates : list json),
    let params := [(lit "data", overpass_query py_str (latitude loc) (longitude loc))] in
    geocode w city = Ok (Some loc) ->
    requests_get w overpass_url params = Ok r ->
    response_json r = Ok (JDict body) ->
    dict_lookup (lit "elements") body = Some (JList elements) ->
    map_result element_name elements = Ok candidates ->
    search_restaurants py_str py_repr w city t
    = (Ok (firstn 3 (add_names [] candidates)),
       t ++ [Geocode city; RequestsGet overpass_url params]).
Proof.
  intros py_str py_repr w city loc t r body elements candidates params
         Hgeo Hget Hjs Hel Hnames.
  rewrite (search_restaurants_geocoded py_str py_repr w city loc t Hgeo).
  fold params. rewrite Hget. simpl. rewrite Hjs. simpl.
  unfold names_of_body, dict_get. rewrite Hel. simpl.
  rewrite (collect_names_add_names elements candidates [] Hnames); [reflexivity|].
  simpl. lia.
Qed.

Lemma search_restaurants_first_three_distinct_witness :
  search_restaurants Sample.py_str Sample.py_repr
    (Sample.with_http_answer Sample.world
       (Ok (Sample.overpass_body
              [ Sample.restaurant "Linger"; JDict [ (lit "type", JStr (lit "node")) ];
                Sample.restaurant "Linger"; Sample.restaurant "Rioja" ])))
    (lit "Denver") []
  = (Ok (firstn 3 (add_names []
           [ JStr (lit "Linger"); JNull; JStr (lit "Linger"); JStr (lit "Rioja") ])),
     [] ++ [Geocode (lit "Denver");
            RequestsGet overpass_url
              [(lit "data", overpass_query Sample.py_str (39 # 1) (- 105 # 1))]])
  /\ firstn 3 (add_names []
       [ JStr (lit "Linger"); JNull; JStr (lit "Linger"); JStr (lit "Rioja") ])
     = [ JStr (lit "Linger"); JStr (lit "Rioja") ].
Proof.
  split; [|reflexivity].
  apply (search_restaurants_first_three_distinct Sample.py_str Sample.py_repr
           (Sample.with_http_answer Sample.world
              (Ok (Sample.overpass_body
                     [ Sample.restaurant "Linger";
                       JDict [ (lit "type", JStr (lit "node")) ];
                       Sample.restaurant "Linger"; Sample.restaurant "Rioja" ])))
           (lit "Denver") {| latitude := 39 # 1; longitude := - 105 # 1 |} []
           (Sample.overpass_body
              [ Sample.restaurant "Linger"; JDict [ (lit "type", JStr (lit "node")) ];
                Sample.restaurant "Linger"; Sample.restaurant "Rioja" ])
           [ (lit "version", JFloat (6 # 10));
             (lit "elements",
              JList [ Sample.restaurant "Linger";
                      JDict [ (lit "type", JStr (lit "node")) ];
                      Sample.restaurant "Linger"; Sample.restaurant "Rioja" ]) ]
           [ Sample.restaurant "Linger"; JDict [ (lit "type", JStr (lit "node")) ];
             Sample.restaurant "Linger"; Sample.restaurant "Rioja" ]);
    reflexivity.
Defined.

Lemma collect_names_stops (seen rest names result : list json) :
  collect_names seen names = Ok result ->
  (List.length names < 3)%nat -> (3 <= List.length result)%nat ->
  collect_names (seen ++ rest) names = Ok result.
Proof.
  revert names. induction seen as [|el seen IH]; simpl; intros names H Hlen Hres.
  - injection H as <-. lia.
  - destruct (dict_get el (lit "tags") (JDict [])) as [tags|x]; simpl in *; [|discriminate].
    destruct (dict_get tags (lit "name") JNull) as [name|x]; simpl in *; [|discriminate].
    set (names' := if truthy name && negb (py_in name names)
                   then names ++ [name] else names) in *.
    change ((if (3 <=? List.length names')%nat then Ok names'
             else collect_names seen names') = Ok result) in H.
    change ((if (3 <=? List.length names')%nat then Ok names'
             else collect_names (seen ++ rest) names') = Ok result).
    destruct (3 <=? List.length names')%nat eqn:E3; [exact H|].
    apply Nat.leb_gt in E3. now apply IH.
Qed.

(** X12. With three names found, [search_restaurants] reads no further: an
    answer that goes on after the elements which gave the three names, with
    whatever elements, gives the same three names. *)
Theorem names_of_body_stops_at_three :
  forall (body body' : list (str * json)) (seen rest names : list json),
    dict_lookup (lit "elements") body = Some (JList seen) ->
    dict_lookup (lit "elements") body' = Some (JList (seen ++ rest)) ->
    names_of_body (JDict body) = Ok names ->
    List.length names = 3%nat ->
    names_of_body (JDict body') = Ok names.
Proof.
  intros body body' seen rest names Hb Hb' H Hlen.
  unfold names_of_body, dict_get in *. rewrite Hb in H. rewrite Hb'. simpl in *.
  apply collect_names_stops; [exact H|simpl; lia|lia].
Qed.

Lemma names_of_body_stops_at_three_witness :
  names_of_body
    (JDict [ (lit "elements",
              JList ([ Sample.restaurant "Linger"; Sample.restaurant "Root Down";
                       Sample.restaurant "Rioja" ]
                     ++ [ JInt 7; Sample.restaurant "Guard and Grace" ])) ])
  = Ok [ JStr (lit "Linger"); JStr (lit "Root Down"); JStr (lit "Rioja") ].
Proof.
  apply (names_of_body_stops_at_three
           [ (lit "elements",
              JList [ Sample.restaurant "Linger"; Sample.restaurant "Root Down";
                      Sample.restaurant "Rioja" ]) ]
           [ (lit "elements",
              JList ([ Sample.restaurant "Linger"; Sample.restaurant "Root Down";
                       Sample.restaurant "Rioja" ]
                     ++ [ JInt 7; Sample.restaurant "Guard and Grace" ])) ]
           [ Sample.restaurant "Linger"; Sample.restaurant "Root Down";
             Sample.restaurant "Rioja" ]
           [ JInt 7; Sample.restaurant "Guard and Grace" ]);
    reflexivity.
Defined.

(** *** [build_itinerary_text] *)

Lemma join_values_non_string (sep : str) (xs : list json) :
  forallb is_str xs = false -> join_values sep xs = Raise type_error.
Proof.
  induction xs as [|x xs IH]; [discriminate|].
  intros H. destruct x; try reflexivity.
  cbn [forallb is_str andb] in H. cbn [join_values].
  destruct xs as [|y xs]; [discriminate|].
  now rewrite (IH H).
Qed.

(** X13. A restaurant name that is not a string (the provider's answer may
    hold any JSON value under "name") cannot be joined: the prompt is not
    built, [build_itinerary_text] raises [TypeError] and the generator is
    not called. *)
Theorem build_itinerary_text_rejects_non_string_name :
  forall (isoformat : date -> str) (w : World) (req : UserRequest)
         (flights events : list str) (restaurants : list json) (t : trace),
    forallb is_str restaurants = false ->
    build_itinerary_text isoformat w req (map JStr flights) (map JStr events)
                         restaurants t
    = (Raise type_error, t).
Proof.
  intros isoformat w req flights events restaurants t H.
  unfold build_itinerary_text, itinerary_prompt. rewrite !render_facts_strings.
  assert (Hr : render_facts restaurants = Raise type_error).
  { unfold render_facts. destruct restaurants as [|x xs]; [discriminate|].
    now apply join_values_non_string. }
  run. now rewrite Hr.
Qed.

Lemma build_itinerary_text_rejects_non_string_name_witness :
  build_itinerary_text Sample.isoformat Sample.world Sample.request
    (map JStr [lit "UA100 on 2024-09-01T08:00:00"]) (map JStr [])
    [JStr (lit "Linger"); JInt 5] []
  = (Raise type_error, []).
Proof.
  exact (build_itinerary_text_rejects_non_string_name Sample.isoformat Sample.world
           Sample.request [lit "UA100 on 2024-09-01T08:00:00"] []
           [JStr (lit "Linger"); JInt 5] [] eq_refl).
Defined.

(** Such a name reaches [build_itinerary_text]: a number under "name" is
    truthy, is kept by [search_restaurants], and ends the run of [main]
    after the three searches. *)
Remark main_numeric_restaurant_name :
  main Sample.ascii_lower Sample.py_str Sample.py_repr Sample.isoformat
       Sample.airports
       (Sample.with_http_answer (Sample.without_token Sample.world)
          (Ok (Sample.overpass_body [Sample.numbered_element])))
       []
  = (Raise type_error,
     [ Input (lit "Enter your travel request: ");
       RunAgent (lit "google-gla:gemini-2.0-flash") extraction_system_prompt
                (stdin_line Sample.world);
       NewClient (Some (lit "key")) (Some (lit "secret"));
       FlightOffersSearch (flight_params (lit "BOS") (lit "DEN")
                             (lit "2024-09-01") (lit "2024-09-08"));
       Log WARNING (lit "No Eventbrite token; skipping events.");
       Geocode (lit "Denver");
       RequestsGet overpass_url
         [(lit "data", lit "[out:json]; node[amenity=restaurant](around:5000,39.0,-105.0); out;")] ]).
Proof. reflexivity. Qed.

(** *** [main] *)

Lemma quiet_silent (l : list event) :
  forallb quiet l = true -> forallb silent l = true.
Proof.
  induction l as [|e l IH]; simpl; [reflexivity|].
  intros H. apply andb_true_iff in H as [He Hl]. rewrite (IH Hl).
  destruct e; try discriminate; reflexivity.
Qed.

Section Frames.

Variable lower : str -> str.
Variable py_str : json -> str.
Variable py_repr : str -> str.
Variable isoformat : date -> str.
Variable airports : list (str * Airport).
Variable w : World.

(** A computation that, from any trace on, only adds events that are not
    output. *)
Let framed (A : Type) (m : M A) : Prop :=
  forall t, exists r new, m t = (r, t ++ new) /\ forallb silent new = true.

(** A computation that prints nothing, or ends by asking the generator for
    the narrative and printing the banner and the text it got. *)
Let all_or_nothing (m : M unit) : Prop :=
  forall t, exists r new,
    m t = (r, t ++ new)
    /\ (forallb silent new = true
        \/ (r = Ok tt
            /\ exists before prompt text,
                new = before ++ [RunAgent (agent_model w) planner_system_prompt prompt;
                                 Print itinerary_banner; Print text]
                /\ forallb silent before = true
                /\ agent_text w (agent_model w) planner_system_prompt prompt = Ok text)).

Lemma framed_ret (A : Type) (a : A) : framed A (ret a).
Proof. intros t. exists (Ok a), []. now rewrite app_nil_r. Qed.

Lemma framed_lift (A : Type) (r : result A) : framed A (lift r).
Proof. intros t. exists r, []. now rewrite app_nil_r. Qed.

Lemma framed_call (A : Type) (e : event) (r : result A) :
  silent e = true -> framed A (call e r).
Proof. intros He t. exists r, [e]. split; [reflexivity|]. simpl. now rewrite He. Qed.

Lemma framed_log (l : level) (msg : str) : framed unit (log l msg).
Proof. intros t. exists (Ok tt), [Log l msg]. now split. Qed.

Lemma framed_bind (A B : Type) (m : M A) (k : A -> M B) :
  framed A m -> (forall a, framed B (k a)) -> framed B (bind m k).
Proof.
  intros Hm Hk t. rewrite bind_run.
  destruct (Hm t) as (r & new & -> & Hnew). destruct r as [a|x].
  - destruct (Hk a (t ++ new)) as (r' & new' & -> & Hnew').
    exists r', (new ++ new'). rewrite app_assoc. split; [reflexivity|].
    now rewrite forallb_app, Hnew, Hnew'.
  - now exists (Raise x), new.
Qed.

Lemma framed_try_except (A : Type) (m : M A) (catches : exn -> bool)
    (handler : exn -> M A) :
  framed A m -> (forall x, framed A (handler x)) ->
  framed A (try_except m catches handler).
Proof.
  intros Hm Hh t. unfold try_except.
  destruct (Hm t) as (r & new & -> & Hnew). destruct r as [a|x].
  - now exists (Ok a), new.
  - destruct (catches x); [|now exists (Raise x), new].
    destruct (Hh x (t ++ new)) as (r' & new' & -> & Hnew').
    exists r', (new ++ new'). rewrite app_assoc. split; [reflexivity|].
    now rewrite forallb_app, Hnew, Hnew'.
Qed.

Lemma framed_ensure_dates (req : UserRequest) :
  framed UserRequest (ensure_dates isoformat w req).
Proof.
  intros t. destruct (ensure_dates_logs isoformat w req t) as (logs & Ht & Hq).
  exists (fst (ensure_dates isoformat w req t)), logs.
  rewrite <- Ht. split; [now destruct (ensure_dates isoformat w req t)|].
  now apply quiet_silent.
Qed.

Lemma framed_search_flights (amadeus : Client) (origin_code dest_code : str)
    (start end_ : option date) :
  framed (list str)
    (search_flights py_str py_repr isoformat w amadeus origin_code dest_code start end_).
Proof.
  intros t. destruct start as [s|]; [destruct end_ as [e|]|].
  - rewrite search_flights_outcome.
    destruct (data <- flight_offers_search_get w amadeus _ ;;
              offers <- iterate (py_or data (JList [])) ;;
              map_result (flight_descriptor py_str) offers)%res as [[|d ds]|x].
    + eexists _, [_; _]. now split.
    + eexists _, [_]. now split.
    + destruct (is_ResponseError x).
      * eexists _, [_; _]. now split.
      * eexists _, [_]. now split.
  - exists (Raise attribute_error), []. now rewrite app_nil_r.
  - exists (Raise attribute_error), []. now rewrite app_nil_r.
Qed.

Lemma framed_search_events (city : str) (start end_ : option date) (interests : list str) :
  framed (list str) (search_events py_str isoformat w city start end_ interests).
Proof.
  unfold search_events. destruct (no_token (getenv w (lit "EVENTBRITE_TOKEN"))).
  - apply framed_bind; [apply framed_log|intros; apply framed_ret].
  - repeat first [ apply framed_ret | apply framed_lift | apply framed_log
                 | apply framed_call; reflexivity
                 | apply framed_try_except; [|intros]
                 | apply framed_bind; [|intros] ].
Qed.

Lemma framed_search_restaurants (city : str) :
  framed (list json) (search_restaurants py_str py_repr w city).
Proof.
  unfold search_restaurants.
  apply framed_bind; [apply framed_call; reflexivity|]. intros [loc|].
  - repeat first [ apply framed_ret | apply framed_lift | apply framed_log
                 | apply framed_call; reflexivity
                 | apply framed_try_except; [|intros]
                 | apply framed_bind; [|intros] ].
  - apply framed_bind; [apply framed_log|intros; apply framed_ret].
Qed.

Lemma all_or_nothing_framed (m : M unit) : framed unit m -> all_or_nothing m.
Proof.
  intros Hm t. destruct (Hm t) as (r & new & -> & Hnew).
  exists r, new. split; [reflexivity|now left].
Qed.

Lemma all_or_nothing_bind (A : Type) (m : M A) (k : A -> M unit) :
  framed A m -> (forall a, all_or_nothing (k a)) -> all_or_nothing (bind m k).
Proof.
  intros Hm Hk t. rewrite bind_run.
  destruct (Hm t) as (r & new & -> & Hnew). destruct r as [a|x].
  - destruct (Hk a (t ++ new)) as (r' & new' & -> & Hnew').
    exists r', (new ++ new'). rewrite app_assoc. split; [reflexivity|].
    destruct Hnew' as [Hs|(-> & before & prompt & text & -> & Hb & Ha)].
    + left. now rewrite forallb_app, Hnew, Hs.
    + right. split; [reflexivity|].
      exists (new ++ before), prompt, text. rewrite app_assoc.
      split; [reflexivity|]. split; [|exact Ha].
      now rewrite forallb_app, Hnew, Hb.
  - exists (Raise x), new. split; [reflexivity|now left].
Qed.

(** The last step of [main]: the narrative is asked for, then printed. *)
Lemma all_or_nothing_narrate (req : UserRequest) (flights events restaurants : list json) :
  all_or_nothing
    (itinerary <- build_itinerary_text isoformat w req flights events restaurants ;;
     emit (Print itinerary_banner) ;;
     emit (Print itinerary)).
Proof.
  intros t. unfold build_itinerary_text. run.
  destruct (itinerary_prompt isoformat req flights events restaurants) as [prompt|x].
  - destruct (agent_text w (agent_model w) planner_system_prompt prompt) as [text|x] eqn:Ha.
    + eexists _, [_; _; _]. rewrite <- !app_assoc. split; [reflexivity|].
      right. split; [reflexivity|]. now exists [], prompt, text.
    + eexists _, [_]. split; [reflexivity|now left].
  - eexists _, []. rewrite app_nil_r. split; [reflexivity|now left].
Qed.

(** The searches and the narration, once the codes are resolved. *)
Lemma all_or_nothing_searches (req : UserRequest) (amadeus : Client)
    (orig_code dest_code : str) :
  all_or_nothing
    (flights <- search_flights py_str py_repr isoformat w amadeus orig_code dest_code
                  (start_date req) (end_date req) ;;
     events <- search_events py_str isoformat w (destination req)
                 (start_date req) (end_date req) (interests_or_empty req) ;;
     restaurants <- search_restaurants py_str py_repr w (destination req) ;;
     itinerary <- build_itinerary_text isoformat w req (map JStr flights)
                    (map JStr events) restaurants ;;
     emit (Print itinerary_banner) ;;
     emit (Print itinerary)).
Proof.
  apply all_or_nothing_bind; [apply framed_search_flights|]. intros flights.
  apply all_or_nothing_bind; [apply framed_search_events|]. intros events.
  apply all_or_nothing_bind; [apply framed_search_restaurants|]. intros restaurants.
  apply all_or_nothing_narrate.
Qed.

Lemma all_or_nothing_plan_trip (req : UserRequest) :
  all_or_nothing (plan_trip lower py_str py_repr isoformat airports w req).
Proof.
  unfold plan_trip.
  apply all_or_nothing_bind; [apply framed_ensure_dates|]. intros req1.
  apply all_or_nothing_bind; [apply framed_call; reflexivity|]. intros amadeus.
  apply all_or_nothing_bind.
  - apply framed_try_except.
    + repeat first [ apply framed_ret | apply framed_lift
                   | apply framed_bind; [|intros] ].
    + intros x. apply framed_bind; [apply framed_log|intros; apply framed_ret].
  - intros [[orig_code dest_code]|].
    + apply all_or_nothing_searches.
    + apply all_or_nothing_framed, framed_ret.
Qed.

Lemma all_or_nothing_main :
  all_or_nothing (main lower py_str py_repr isoformat airports w).
Proof.
  unfold main, parse_user_request.
  apply all_or_nothing_bind; [apply framed_call; reflexivity|]. intros text.
  apply all_or_nothing_bind; [apply framed_call; reflexivity|]. intros req.
  apply all_or_nothing_plan_trip.
Qed.

End Frames.

(** X14. Whatever the user, the providers and the generators answer, [main]
    prints all or nothing: either it prints nothing at all, or it returns
    normally and the run ends with the call to the narrative generator
    followed by two prints, the banner and the text the generator
    returned. *)
Theorem main_prints_all_or_nothing :
  forall (lower : str -> str) (py_str : json -> str) (py_repr : str -> str)
         (isoformat : date -> str) (airports : list (str * Airport)) (w : World)
         (t : trace),
  exists r new,
    main lower py_str py_repr isoformat airports w t = (r, t ++ new)
    /\ (forallb silent new = true
        \/ (r = Ok tt
            /\ exists before prompt text,
                new = before ++ [RunAgent (agent_model w) planner_system_prompt prompt;
                                 Print itinerary_banner; Print text]
                /\ forallb silent before = true
                /\ agent_text w (agent_model w) planner_system_prompt prompt = Ok text)).
Proof.
  intros lower py_str py_repr isoformat airports w t.
  exact (all_or_nothing_main lower py_str py_repr isoformat airports w t).
Qed.

(** X15. The Amadeus client is built outside every [try]: when its
    construction raises (as with missing credentials), the run ends there
    with that exception, before any search, and prints nothing. *)
Theorem plan_trip_client_failure :
  forall (lower : str -> str) (py_str : json -> str) (py_repr : str -> str)
         (isoformat : date -> str) (airports : list (str * Airport)) (w : World)
         (req req1 : UserRequest) (t t1 : trace) (x : exn),
    ensure_dates isoformat w req t = (Ok req1, t1) ->
    new_client w (getenv w (lit "AMADEUS_API_KEY")) (getenv w (lit "AMADEUS_API_SECRET"))
    = Raise x ->
    plan_trip lower py_str py_repr isoformat airports w req t
    = (Raise x, t1 ++ [NewClient (getenv w (lit "AMADEUS_API_KEY"))
                                 (getenv w (lit "AMADEUS_API_SECRET"))]).
Proof.
  intros lower py_str py_repr isoformat airports w req req1 t t1 x Hd Hc.
  unfold plan_trip. rewrite bind_run, Hd. rewrite bind_run. unfold call. now rewrite Hc.
Qed.

Lemma plan_trip_client_failure_witness :
  plan_trip Sample.ascii_lower Sample.py_str Sample.py_repr Sample.isoformat
    Sample.airports
    (Sample.with_client_answer Sample.world
       (Raise (Exn (OtherError (lit "ValueError"))
                   (lit "Missing required argument: client_id"))))
    Sample.request []
  = (Raise (Exn (OtherError (lit "ValueError"))
                (lit "Missing required argument: client_id")),
     [] ++ [NewClient (Some (lit "key")) (Some (lit "secret"))]).
Proof.
  exact (plan_trip_client_failure Sample.ascii_lower Sample.py_str Sample.py_repr
           Sample.isoformat Sample.airports
           (Sample.with_client_answer Sample.world
              (Raise (Exn (OtherError (lit "ValueError"))
                          (lit "Missing required argument: client_id"))))
           Sample.request Sample.request [] [] _ eq_refl eq_refl).
Defined.

(** X16. Once both places resolve, the first call after the construction of
    the client is the flight query, and it carries the two resolved codes
    and the normalized dates: those supplied, or the defaults of
    [ensure_dates] where they were absent. *)
Theorem plan_trip_flight_query :
  forall (lower : str -> str) (py_str : json -> str) (py_repr : str -> str)
         (isoformat : date -> str) (airports : list (str * Airport)) (w : World)
         (req req1 : UserRequest) (t t1 : trace) (amadeus : Client)
         (orig_code dest_code : str),
    ensure_dates isoformat w req t = (Ok req1, t1) ->
    new_client w (getenv w (lit "AMADEUS_API_KEY")) (getenv w (lit "AMADEUS_API_SECRET"))
    = Ok amadeus ->
    find_iata lower airports (origin req) = Ok orig_code ->
    find_iata lower airports (destination req) = Ok dest_code ->
    exists r rest,
      plan_trip lower py_str py_repr isoformat airports w req t
      = (r, t1 ++ [ NewClient (getenv w (lit "AMADEUS_API_KEY"))
                              (getenv w (lit "AMADEUS_API_SECRET"));
                    FlightOffersSearch
                      (flight_params orig_code dest_code
                         (isoformat (normal_start w req))
                         (isoformat (normal_end w req))) ]
              ++ rest).
Proof.
  intros lower py_str py_repr isoformat airports w req req1 t t1 amadeus
         orig_code dest_code Hd Hc Ho Hde.
  unfold plan_trip. rewrite bind_run, Hd. rewrite bind_run. unfold call at 1. rewrite Hc.
  apply ensure_dates_returns in Hd. subst req1. cbn [origin destination start_date end_date
                                                     interests_or_empty interests].
  rewrite bind_run. unfold try_except, bind at 1, lift at 1. rewrite Ho.
  unfold bind at 1, lift at 1. rewrite Hde. unfold ret at 1.
  set (k := fun flights : list str => _).
  rewrite bind_run.
  pose proof (search_flights_outcome py_str py_repr isoformat w amadeus orig_code dest_code
                (normal_start w req) (normal_end w req)
                (t1 ++ [NewClient (getenv w (lit "AMADEUS_API_KEY"))
                                  (getenv w (lit "AMADEUS_API_SECRET"))])) as Hout.
  cbv zeta in Hout.
  set (params := flight_params orig_code dest_code (isoformat (normal_start w req))
                               (isoformat (normal_end w req))) in *.
  assert (Hq : exists r logs,
             search_flights py_str py_repr isoformat w amadeus orig_code dest_code
               (Some (normal_start w req)) (Some (normal_end w req))
               (t1 ++ [NewClient (getenv w (lit "AMADEUS_API_KEY"))
                                 (getenv w (lit "AMADEUS_API_SECRET"))])
             = (r, (t1 ++ [NewClient (getenv w (lit "AMADEUS_API_KEY"))
                                     (getenv w (lit "AMADEUS_API_SECRET"))])
                   ++ FlightOffersSearch params :: logs)).
  { rewrite Hout.
    destruct (data <- flight_offers_search_get w amadeus params ;;
              offers <- iterate (py_or data (JList [])) ;;
              map_result (flight_descriptor py_str) offers)%res as [[|d ds]|x].
    - now eexists _, [_].
    - now eexists _, [].
    - destruct (is_ResponseError x); [now eexists _, [_]|now eexists _, []]. }
  clear Hout. destruct Hq as (r' & logs & ->).
  destruct r' as [flights|x].
  - destruct (all_or_nothing_bind w (list str)
                (ret flights) k) with (t := (t1 ++ [NewClient (getenv w (lit "AMADEUS_API_KEY"))
                                     (getenv w (lit "AMADEUS_API_SECRET"))])
                   ++ FlightOffersSearch params :: logs)
      as (r2 & new2 & Hk & _).
    + apply framed_ret.
    + intros fl. unfold k.
      apply all_or_nothing_bind; [apply framed_search_events|]. intros events.
      apply all_or_nothing_bind; [apply framed_search_restaurants|]. intros restaurants.
      apply all_or_nothing_narrate.
    + rewrite bind_run in Hk. unfold ret in Hk. rewrite Hk.
      exists r2, (logs ++ new2). now rewrite <- !app_assoc.
  - exists (Raise x), logs. now rewrite <- !app_assoc.
Qed.

Lemma plan_trip_flight_query_witness :
  exists r rest,
    plan_trip Sample.ascii_lower Sample.py_str Sample.py_repr Sample.isoformat
      Sample.airports Sample.world Sample.undated_request []
    = (r, [ Log INFO (lit "No start_date: defaulting to 2026-11-17");
            Log INFO (lit "No end_date: defaulting to 2026-11-24") ]
          ++ [ NewClient (Some (lit "key")) (Some (lit "secret"));
               FlightOffersSearch
                 (flight_params (lit "BOS") (lit "DEN")
                    (Sample.isoformat (normal_start Sample.world Sample.undated_request))
                    (Sample.isoformat (normal_end Sample.world Sample.undated_request))) ]
          ++ rest).
Proof.
  exact (plan_trip_flight_query Sample.ascii_lower Sample.py_str Sample.py_repr
           Sample.isoformat Sample.airports Sample.world Sample.undated_request
           (set_end_date (set_start_date Sample.undated_request 739937) 739944)
           [] _ Sample.client (lit "BOS") (lit "DEN")
           eq_refl eq_refl eq_refl eq_refl).
Defined.

Lemma build_itinerary_text_sends (isoformat : date -> str) (w : World)
    (req : UserRequest) (flights events restaurants : list json) (prompt : str)
    (t : trace) :
  itinerary_prompt isoformat req flights events restaurants = Ok prompt ->
  build_itinerary_text isoformat w req flights events restaurants t
  = (agent_text w (agent_model w) planner_system_prompt prompt,
     t ++ [RunAgent (agent_model w) planner_system_prompt prompt]).
Proof.
  intros H. unfold build_itinerary_text. rewrite bind_run. unfold lift.
  now rewrite H.
Qed.

(** X17. With every provider down the run still delivers: when the flight
    provider answers with a [ResponseError], the request to the event
    provider fails and the geocoder finds nothing, each search logs its
    notice and gives the empty list, the generator is asked for a narrative
    with "none" for flights, events and restaurants, and its text is
    printed. *)
Theorem plan_trip_survives_provider_outage :
  forall (lower : str -> str) (py_str : json -> str) (py_repr : str -> str)
         (isoformat : date -> str) (airports : list (str * Airport)) (w : World)
         (req req1 : UserRequest) (t t1 : trace) (amadeus : Client)
         (orig_code dest_code : str) (x y : exn) (text : str),
    let api_key := getenv w (lit "AMADEUS_API_KEY") in
    let api_secret := getenv w (lit "AMADEUS_API_SECRET") in
    let token := getenv w (lit "EVENTBRITE_TOKEN") in
    let departure := isoformat (normal_start w req) in
    let return_ := isoformat (normal_end w req) in
    let flight_query := flight_params orig_code dest_code departure return_ in
    let event_query :=
      event_params (destination req) departure return_
                   match token with Some tk => tk | None => [] end
                   (interests_or_empty req) in
    let prompt :=
      lit "Plan a friendly, detailed itinerary for a trip from " ++ origin req
      ++ lit " to " ++ destination req
      ++ lit ", departing " ++ departure ++ lit " and returning " ++ return_
      ++ lit ". Flights: none. Events: none. Restaurants: none. "
      ++ lit "Do not return JSON. Write clear day-by-day bullet points."
      ++ lit "Only give the itinerary for the trip, do not ask anything back."
      ++ lit "Do not use Decorators like *'s, instead make use of whitespaces to make it look cleaner" in
    ensure_dates isoformat w req t = (Ok req1, t1) ->
    new_client w api_key api_secret = Ok amadeus ->
    find_iata lower airports (origin req) = Ok orig_code ->
    find_iata lower airports (destination req) = Ok dest_code ->
    flight_offers_search_get w amadeus flight_query = Raise x ->
    is_ResponseError x = true ->
    no_token token = false ->
    requests_get w eventbrite_url event_query = Raise y ->
    geocode w (destination req) = Ok None ->
    agent_text w (agent_model w) planner_system_prompt prompt = Ok text ->
    plan_trip lower py_str py_repr isoformat airports w req t
    = (Ok tt,
       t1 ++ [ NewClient api_key api_secret;
               FlightOffersSearch flight_query;
               Log ERROR (lit "Flight search error: " ++ exn_str py_repr x);
               RequestsGet eventbrite_url event_query;
               Log ERROR (lit "Event search error: No Event Found");
               Geocode (destination req);
               Log WARNING (lit "Could not geocode " ++ destination req
                            ++ lit "; skipping restaurants.");
               RunAgent (agent_model w) planner_system_prompt prompt;
               Print itinerary_banner;
               Print text ]).
Proof.
  intros lower py_str py_repr isoformat airports w req req1 t t1 amadeus
         orig_code dest_code x y text api_key api_secret token departure return_
         flight_query event_query prompt Hd Hc Ho Hde Hfl Hx Htok Hev Hgeo Hagent.
  unfold plan_trip. rewrite bind_run, Hd. rewrite bind_run. unfold call at 1.
  fold api_key api_secret. rewrite Hc.
  apply ensure_dates_returns in Hd. subst req1.
  cbn [origin destination start_date end_date interests_or_empty interests].
  rewrite bind_run. unfold try_except, bind at 1, lift at 1. rewrite Ho.
  unfold bind at 1, lift at 1. rewrite Hde. unfold ret at 1.
  rewrite bind_run.
  rewrite (search_flights_provider_error py_str py_repr isoformat w amadeus orig_code
             dest_code (normal_start w req) (normal_end w req) x _ Hfl Hx).
  fold departure return_ flight_query.
  rewrite bind_run.
  rewrite (search_events_with_token py_str isoformat w (destination req)
             (normal_start w req) (normal_end w req) _ _ Htok).
  fold token departure return_.
  match goal with
  | |- context [requests_get w eventbrite_url ?q] => change q with event_query
  end.
  rewrite Hev. cbn [rbind].
  rewrite bind_run.
  rewrite (search_restaurants_not_geocoded py_str py_repr w (destination req) _ Hgeo).
  rewrite bind_run.
  rewrite (build_itinerary_text_sends isoformat w _ _ _ _ prompt); [|reflexivity].
  rewrite Hagent. unfold bind, emit.
  now rewrite <- !app_assoc.
Qed.

Lemma plan_trip_survives_provider_outage_witness :
  plan_trip Sample.ascii_lower Sample.py_str Sample.py_repr Sample.isoformat
    Sample.airports Sample.world_providers_down Sample.request []
  = (Ok tt,
     [] ++ [ NewClient (Some (lit "key")) (Some (lit "secret"));
             FlightOffersSearch (flight_params (lit "BOS") (lit "DEN")
                                   (lit "2024-09-01") (lit "2024-09-08"));
             Log ERROR (lit "Flight search error: [500] Server error");
             RequestsGet eventbrite_url
               (event_params (lit "Denver") (lit "2024-09-01") (lit "2024-09-08")
                             (lit "tok") [lit "skiing"]);
             Log ERROR (lit "Event search error: No Event Found");
             Geocode (lit "Denver");
             Log WARNING (lit "Could not geocode Denver; skipping restaurants.");
             RunAgent (lit "google-gla:gemini-2.0-flash") planner_system_prompt
               (lit "Plan a friendly, detailed itinerary for a trip from Boston to Denver, departing 2024-09-01 and returning 2024-09-08. Flights: none. Events: none. Restaurants: none. Do not return JSON. Write clear day-by-day bullet points.Only give the itinerary for the trip, do not ask anything back.Do not use Decorators like *'s, instead make use of whitespaces to make it look cleaner");
             Print itinerary_banner;
             Print (lit "Day 1: arrive in Denver.") ]).
Proof.
  exact (plan_trip_survives_provider_outage Sample.ascii_lower Sample.py_str
           Sample.py_repr Sample.isoformat Sample.airports Sample.world_providers_down
           Sample.request Sample.request [] [] Sample.client (lit "BOS") (lit "DEN")
           (Exn ResponseError (lit "[500] Server error"))
           (Exn (OtherError (lit "ConnectionError")) (lit "connection refused"))
           (lit "Day 1: arrive in Denver.")
           eq_refl eq_refl eq_refl eq_refl eq_refl eq_refl eq_refl eq_refl eq_refl eq_refl).
Defined.
